(** * QKD simulator: BB84 and E91 ([app.py], class [FastQuantumKeyDistribution])

    A shallow embedding of the two simulation functions [bb84_protocol] and
    [e91_protocol] and of the numpy operations they call, followed by the
    properties of the specification.

    Modelling choices.
    - The global [np.random] generator is threaded as explicit state; a Python
      exception ends the computation with [Raised] and leaves the generator
      as it was at that point.
    - numpy itself is not part of the repository.  Its generator is taken as
      an interface ([RandomState]); what the numpy documentation promises of
      each draw is collected in [RandomStateLaws].
    - A [float64] produced by [np.mean] is the exact quotient sum/size, or
      [NaN] for an empty array.  For the array sizes at hand (below 2^50) the
      float comparisons against 0.15 and 0.7 agree with the comparisons of
      the exact quotients, so the thresholds are the rationals 15/100 and
      7/10.
    - The Streamlit decorator [st.cache_data] and [main] (the dashboard) are
      outside the model. *)

From Stdlib Require Import String Ascii.
From Stdlib Require Import ZArith QArith Qround List Bool Lia Permutation.
From Stdlib Require Import DecimalString.
Import ListNotations.
Open Scope Z_scope.

(** ** Python values *)

Inductive exn : Type := ValueError | TypeError | KeyError | IndexError.

(** The argument [n_qubits]: a Python [int] or a Python [float]. *)
Inductive pynum : Type :=
| PyInt (z : Z)
| PyFloat (q : Q).

(** A numpy [float64] as far as this program produces one. *)
Inductive npfloat : Type :=
| NaN
| Fin (q : Q).

(** [x > c], [x < c] and [x == c] on floats: every comparison with NaN is false. *)
Definition np_gt (x : npfloat) (c : Q) : bool :=
  match x with
  | NaN => false
  | Fin q => negb (Qle_bool q c)
  end.

Definition np_lt (x : npfloat) (c : Q) : bool :=
  match x with
  | NaN => false
  | Fin q => negb (Qle_bool c q)
  end.

Definition np_eq (x : npfloat) (c : Q) : bool :=
  match x with
  | NaN => false
  | Fin q => Qeq_bool q c
  end.

Definition in_unit_interval (x : npfloat) : Prop :=
  match x with
  | NaN => False
  | Fin q => (0 <= q /\ q <= 1)%Q
  end.

Definition is_bit (z : Z) : Prop := z = 0 \/ z = 1.

(** [np.mean] of an integer or boolean array ([True] counts as 1). *)
Definition np_sum (xs : list Z) : Z := fold_right Z.add 0 xs.

Definition np_mean (xs : list Z) : npfloat :=
  match xs with
  | [] => NaN
  | _ :: _ => Fin (Qmake (np_sum xs) (Pos.of_nat (length xs)))
  end.

(** The values stored in the returned dicts. *)
Inductive pyvalue : Type :=
| PyIntList (l : list Z)
| PyStrList (l : list string)
| PyBoolList (l : list bool)
| PyFloat64 (x : npfloat)
| PyBool (b : bool).

(** A dict literal, in insertion order. *)
Definition dict : Type := list (string * pyvalue).

Fixpoint dict_get (k : string) (d : dict) : option pyvalue :=
  match d with
  | [] => None
  | (k', v) :: d' => if String.eqb k k' then Some v else dict_get k d'
  end.

Definition dict_keys (d : dict) : list string := map fst d.

(** ** Computations over the global generator *)

Inductive outcome (A : Type) : Type :=
| Raised (e : exn)
| Returned (a : A).
Arguments Raised {A} e.
Arguments Returned {A} a.

Definition np (S A : Type) : Type := S -> outcome A * S.

Definition ret {S A : Type} (a : A) : np S A := fun g => (Returned a, g).

Definition raise {S A : Type} (e : exn) : np S A := fun g => (Raised e, g).

Definition bind {S A B : Type} (m : np S A) (f : A -> np S B) : np S B :=
  fun g =>
    match m g with
    | (Raised e, g') => (Raised e, g')
    | (Returned a, g') => f a g'
    end.

Notation "x <- m ;; k" := (bind m (fun x => k))
  (at level 61, m at next level, right associativity).
Notation "m ;;; k" := (bind m (fun _ => k))
  (at level 61, right associativity).

(** ** The numpy generator *)

(** The draws of [np.random] used by the program. *)
Record RandomState : Type := {
  mt_state : Type;
  (* the state installed by [np.random.seed(s)] for 0 <= s < 2^32 *)
  seeded : Z -> mt_state;
  (* one draw of [np.random.randint(2)] *)
  randint2 : mt_state -> Z * mt_state;
  (* [np.random.random()] *)
  random_sample : mt_state -> Q * mt_state;
  (* [np.random.choice(n, k, replace=False)] for 0 <= k <= n *)
  sample_indices : nat -> nat -> mt_state -> list nat * mt_state
}.

(** What numpy documents of these draws. *)
Record RandomStateLaws (R : RandomState) : Prop := {
  randint2_bit : forall g, is_bit (fst (randint2 R g));
  sample_length : forall n k g,
      (k <= n)%nat -> length (fst (sample_indices R n k g)) = k;
  sample_range : forall n k g,
      (k <= n)%nat -> Forall (fun i => (i < n)%nat) (fst (sample_indices R n k g));
  sample_distinct : forall n k g,
      (k <= n)%nat -> NoDup (fst (sample_indices R n k g))
}.

(** Fancy indexing [arr[idx]] with an array of non-negative indices. *)
Fixpoint take_indices {S : Type} (arr : list Z) (idx : list nat) : np S (list Z) :=
  match idx with
  | [] => ret []
  | i :: idx' =>
      match nth_error arr i with
      | None => raise IndexError
      | Some x => xs <- take_indices arr idx' ;; ret (x :: xs)
      end
  end.

(** Elementwise [a != b] and [a == b] of two arrays of one shape, as 0/1. *)
Fixpoint array_ne (a b : list Z) : list Z :=
  match a, b with
  | x :: a', y :: b' => Z.b2z (negb (x =? y)) :: array_ne a' b'
  | _, _ => []
  end.

Fixpoint array_eq (a b : list Z) : list Z :=
  match a, b with
  | x :: a', y :: b' => Z.b2z (x =? y) :: array_eq a' b'
  | _, _ => []
  end.

(** The variables the BB84 loop appends to (lines 38-42). *)
Record loop_vars : Type := {
  bob_results : list Z;
  bob_polarizations : list string;
  eve_interventions : list bool;
  matched_bases : list bool;
  shared_key : list Z
}.

Definition loop_init : loop_vars :=
  {| bob_results := []; bob_polarizations := []; eve_interventions := [];
     matched_bases := []; shared_key := [] |}.

(** A tuple of the [zip] at line 44: bit, Alice's basis, Bob's basis, polarization. *)
Definition item : Type := (Z * Z * Z * string)%type.

Fixpoint zip4 (a b c : list Z) (d : list string) : list item :=
  match a, b, c, d with
  | x :: a', y :: b', z :: c', w :: d' => (x, y, z, w) :: zip4 a' b' c' d'
  | _, _, _, _ => []
  end.

(** The four polarization symbols, as UTF-8 strings. *)
Definition sym_up : string := "↑".
Definition sym_up_right : string := "↗".
Definition sym_right : string := "→".
Definition sym_down_right : string := "↘".

(** The dict [polarization_symbols] (lines 21-26). *)
Definition polarization_symbols : list ((Z * Z) * string) :=
  [ ((0, 0), sym_up);
    ((0, 1), sym_up_right);
    ((1, 0), sym_right);
    ((1, 1), sym_down_right) ].

Fixpoint lookup_symbol (k : Z * Z) (d : list ((Z * Z) * string)) : option string :=
  match d with
  | [] => None
  | ((b, s), v) :: d' =>
      if (fst k =? b) && (snd k =? s) then Some v else lookup_symbol k d'
  end.

(** [polarization_symbols[(bit, basis)]]: a missing key raises [KeyError]. *)
Definition polarization_of {S : Type} (bit basis : Z) : np S string :=
  match lookup_symbol (bit, basis) polarization_symbols with
  | Some s => ret s
  | None => raise KeyError
  end.

(** ['+' if b == 0 else 'X'] *)
Definition basis_name (b : Z) : string := if b =? 0 then "+" else "X".

(** The local variables of [bb84_protocol] at its [return]. *)
Record bb84_locals : Type := {
  alice_bits : list Z;
  alice_bases : list Z;
  bob_bases : list Z;
  alice_polarizations : list string;
  loop_end : loop_vars;
  comparison_subset : list nat;
  error_rate : npfloat
}.

(** The dict literal returned at lines 68-79. *)
Definition bb84_result (L : bb84_locals) : dict :=
  [ ("alice_bits", PyIntList (alice_bits L));
    ("bob_bits", PyIntList (bob_results (loop_end L)));
    ("alice_bases", PyStrList (map basis_name (alice_bases L)));
    ("bob_bases", PyStrList (map basis_name (bob_bases L)));
    ("alice_polarizations", PyStrList (alice_polarizations L));
    ("bob_polarizations", PyStrList (bob_polarizations (loop_end L)));
    ("matched_bases", PyBoolList (matched_bases (loop_end L)));
    ("shared_key", PyIntList (shared_key (loop_end L)));
    ("error_rate", PyFloat64 (error_rate L));
    ("eavesdropping_detected", PyBool (np_gt (error_rate L) (15 # 100))) ]%string.

(** The local variables of [e91_protocol] at its [return]. *)
Record e91_locals : Type := {
  e91_alice_bases : list Z;
  e91_bob_bases : list Z;
  correlated_bits : list Z;
  correlation_rate : npfloat
}.

(** The dict literal returned at lines 101-106. *)
Definition e91_result (L : e91_locals) : dict :=
  [ ("alice_bases", PyIntList (e91_alice_bases L));
    ("bob_bases", PyIntList (e91_bob_bases L));
    ("correlation_rate", PyFloat64 (correlation_rate L));
    ("eavesdropped", PyBool (np_lt (correlation_rate L) (7 # 10))) ]%string.

Section Simulation.

Variable R : RandomState.

Abbreviation rand := (np (mt_state R)).

(** [np.random.seed(s)]: accepts 0 <= s < 2^32, raises [ValueError] otherwise. *)
Definition np_random_seed (s : Z) : rand unit :=
  fun g =>
    if (0 <=? s) && (s <? 2 ^ 32) then (Returned tt, seeded R s)
    else (Raised ValueError, g).

(** Lines 12-13 and 87-88: [if _seed is not None: np.random.seed(_seed)]. *)
Definition seed_if_given (_seed : option Z) : rand unit :=
  match _seed with
  | Some s => np_random_seed s
  | None => ret tt
  end.

(** [np.random.randint(2)] *)
Definition np_random_randint2 : rand Z :=
  fun g => let (b, g') := randint2 R g in (Returned b, g').

(** [np.random.random()] *)
Definition np_random_random : rand Q :=
  fun g => let (x, g') := random_sample R g in (Returned x, g').

Fixpoint randint2_draws (k : nat) : rand (list Z) :=
  match k with
  | O => ret []
  | S k' => b <- np_random_randint2 ;; bs <- randint2_draws k' ;; ret (b :: bs)
  end.

(** [np.random.randint(2, size=n)]: a float size raises [TypeError], a
    negative one [ValueError]; otherwise [n] draws, one after the other.
    Memory is not modelled: for a size numpy cannot allocate the real call
    raises ([MemoryError], or [ValueError] from 2^63 on) where this one
    returns, so what is proved of a returned result concerns the sizes for
    which the call does return. *)
Definition np_random_randint2_size (n : pynum) : rand (list Z) :=
  match n with
  | PyFloat _ => raise TypeError
  | PyInt z => if z <? 0 then raise ValueError else randint2_draws (Z.to_nat z)
  end.

(** [n_qubits // 2] *)
Definition floordiv2 (n : pynum) : pynum :=
  match n with
  | PyInt z => PyInt (z / 2)
  | PyFloat q => PyFloat (inject_Z (Qfloor (q / 2)))
  end.

(** A float size cast to an integer count, rounding towards zero. *)
Definition truncate (q : Q) : Z :=
  if Qle_bool 0 q then Qfloor q else Qceiling q.

(** [np.random.choice(a, size, replace=False)] with an integer population.
    A float size passes the checks as the count it truncates to; the
    permutation is drawn, and only giving the result its shape raises
    [TypeError], in the generator state the draw left.  A float population
    raises [ValueError] before anything is drawn. *)
Definition np_random_choice (a size : pynum) : rand (list nat) :=
  match a, size with
  | PyInt n, PyInt k =>
      if k <? 0 then raise ValueError
      else if (n <=? 0) && negb (k =? 0) then raise ValueError
      else if n <? k then raise ValueError
      else fun g =>
             let (idx, g') := sample_indices R (Z.to_nat n) (Z.to_nat k) g in
             (Returned idx, g')
  | PyInt n, PyFloat q =>
      let k := truncate q in
      if (n <=? 0) && negb (Qeq_bool q 0) then raise ValueError
      else if n <? k then raise ValueError
      else if k <? 0 then raise ValueError
      else fun g =>
             let (idx, g') := sample_indices R (Z.to_nat n) (Z.to_nat k) g in
             (Raised TypeError, g')
  | PyFloat _, _ => raise ValueError
  end.

(** Lines 32-36. *)
Definition fast_eavesdropping_simulation (alice_bit alice_basis : Z)
  : rand (option Z) :=
  let eve_intercept_prob := (2 # 10)%Q in
  x <- np_random_random ;;
  if negb (Qle_bool eve_intercept_prob x) then
    b <- np_random_randint2 ;; ret (Some b)
  else ret None.

Definition is_not_None (o : option Z) : bool :=
  match o with
  | Some _ => true
  | None => false
  end.

(** The body of the loop, lines 45-62. *)
Definition loop_body (it : item) (v : loop_vars) : rand loop_vars :=
  let '(bit, alice_basis, bob_basis, polarization) := it in
  eve_intervention <- fast_eavesdropping_simulation bit alice_basis ;;
  let eves := eve_interventions v ++ [is_not_None eve_intervention] in
  if alice_basis =? bob_basis then
    let bob_result :=
      match eve_intervention with
      | None => bit
      | Some e => e
      end in
    ret {| bob_results := bob_results v ++ [bob_result];
           bob_polarizations := bob_polarizations v ++ [polarization];
           eve_interventions := eves;
           matched_bases := matched_bases v ++ [true];
           shared_key := shared_key v ++ [bob_result] |}
  else
    guess <- np_random_randint2 ;;
    ret {| bob_results := bob_results v ++ [guess];
           bob_polarizations :=
             bob_polarizations v
               ++ [if bob_basis =? 0 then "?"%string else "?"%string];
           eve_interventions := eves;
           matched_bases := matched_bases v ++ [false];
           shared_key := shared_key v |}.

(** The [for] loop of line 44. *)
Fixpoint for_each (items : list item) (v : loop_vars) : rand loop_vars :=
  match items with
  | [] => ret v
  | it :: items' => v' <- loop_body it v ;; for_each items' v'
  end.

(** The list comprehension of line 29. *)
Fixpoint derive_polarizations (pairs : list (Z * Z)) : rand (list string) :=
  match pairs with
  | [] => ret []
  | (bit, basis) :: pairs' =>
      s <- polarization_of bit basis ;;
      ss <- derive_polarizations pairs' ;;
      ret (s :: ss)
  end.

(** Lines 12-29: seeding, the three arrays and Alice's polarizations. *)
Definition bb84_prepare (n_qubits : pynum) (_seed : option Z)
  : rand (list Z * list Z * list Z * list string) :=
  seed_if_given _seed ;;;
  a_bits <- np_random_randint2_size n_qubits ;;
  a_bases <- np_random_randint2_size n_qubits ;;
  b_bases <- np_random_randint2_size n_qubits ;;
  a_pols <- derive_polarizations (combine a_bits a_bases) ;;
  ret (a_bits, a_bases, b_bases, a_pols).

(** Lines 64-66: the comparison subset and the error rate. *)
Definition bb84_estimate (n_qubits : pynum) (a_bits bob : list Z)
  : rand (list nat * npfloat) :=
  subset <- np_random_choice n_qubits (floordiv2 n_qubits) ;;
  xs <- take_indices a_bits subset ;;
  ys <- take_indices bob subset ;;
  ret (subset, np_mean (array_ne xs ys)).

(** The body of [bb84_protocol] up to its [return]. *)
Definition bb84_simulate (n_qubits : pynum) (_seed : option Z) : rand bb84_locals :=
  prep <- bb84_prepare n_qubits _seed ;;
  let '(a_bits, a_bases, b_bases, a_pols) := prep in
  v <- for_each (zip4 a_bits a_bases b_bases a_pols) loop_init ;;
  est <- bb84_estimate n_qubits a_bits (bob_results v) ;;
  ret {| alice_bits := a_bits; alice_bases := a_bases; bob_bases := b_bases;
         alice_polarizations := a_pols; loop_end := v;
         comparison_subset := fst est; error_rate := snd est |}.

Definition bb84_protocol (n_qubits : pynum) (_seed : option Z) : rand dict :=
  L <- bb84_simulate n_qubits _seed ;; ret (bb84_result L).

(** The body of [e91_protocol] up to its [return] (lines 87-99). *)
Definition e91_simulate (n_qubits : pynum) (_seed : option Z) : rand e91_locals :=
  seed_if_given _seed ;;;
  a_bases <- np_random_randint2_size n_qubits ;;
  b_bases <- np_random_randint2_size n_qubits ;;
  let corr := array_eq a_bases b_bases in
  ret {| e91_alice_bases := a_bases; e91_bob_bases := b_bases;
         correlated_bits := corr; correlation_rate := np_mean corr |}.

Definition e91_protocol (n_qubits : pynum) (_seed : option Z) : rand dict :=
  L <- e91_simulate n_qubits _seed ;; ret (e91_result L).

(** The generator state in which iteration [i] of the loop starts. *)
Definition iteration_state (items : list item) (v : loop_vars)
           (g : mt_state R) (i : nat) : mt_state R :=
  snd (for_each (firstn i items) v g).

(** What Eve's model returns in iteration [i]. *)
Definition eve_at (items : list item) (g : mt_state R) (i : nat) : option Z :=
  match nth_error items i with
  | Some (bit, alice_basis, _, _) =>
      match fst (fast_eavesdropping_simulation bit alice_basis
                   (iteration_state items loop_init g i)) with
      | Returned o => o
      | Raised _ => None
      end
  | None => None
  end.

End Simulation.

(** ** Vocabulary of the statements *)



(** The number of positions at which two sequences differ, resp. agree. *)
Fixpoint count_differing (a b : list Z) : nat :=
  match a, b with
  | x :: a', y :: b' => ((if (x =? y)%Z then 0 else 1) + count_differing a' b')%nat
  | _, _ => 0%nat
  end.

Fixpoint count_agreeing (a b : list Z) : nat :=
  match a, b with
  | x :: a', y :: b' => ((if (x =? y)%Z then 1 else 0) + count_agreeing a' b')%nat
  | _, _ => 0%nat
  end.

(** [arr[i]] for each [i] of [idx], with 0 for an index out of range. *)
Definition at_indices (arr : list Z) (idx : list nat) : list Z :=
  map (fun i => nth i arr 0) idx.

(** What one iteration of the loop appends: Eve's return value, the
    matched flag, Bob's bit and Bob's polarization. *)
Record iteration : Type := {
  it_eve : option Z;
  it_matched : bool;
  it_bob : Z;
  it_pol : string
}.

Definition push (v : loop_vars) (r : iteration) : loop_vars :=
  {| bob_results := bob_results v ++ [it_bob r];
     bob_polarizations := bob_polarizations v ++ [it_pol r];
     eve_interventions := eve_interventions v ++ [is_not_None (it_eve r)];
     matched_bases := matched_bases v ++ [it_matched r];
     shared_key := shared_key v ++ (if it_matched r then [it_bob r] else []) |}.

(** How iteration [r] on the tuple [it], started in generator state [g],
    follows lines 45-62. *)
Definition iteration_spec (R : RandomState) (it : item) (g : mt_state R)
           (r : iteration) : Prop :=
  let '(bit, alice_basis, bob_basis, polarization) := it in
  exists g1,
    fast_eavesdropping_simulation R bit alice_basis g = (Returned (it_eve r), g1) /\
    it_matched r = (alice_basis =? bob_basis) /\
    (it_matched r = true ->
     it_pol r = polarization /\
     it_bob r = match it_eve r with Some e => e | None => bit end) /\
    (it_matched r = false ->
     it_pol r = "?"%string /\ it_bob r = fst (randint2 R g1)).

(** The seeds [np.random.seed] accepts, and no seed at all. *)
Definition seed_ok (_seed : option Z) : Prop :=
  match _seed with
  | Some s => 0 <= s < 2 ^ 32
  | None => True
  end.

(** The four symbols of the encoding. *)
Definition polarization_alphabet : list string :=
  [sym_up; sym_up_right; sym_right; sym_down_right].

(** The keys of the dict returned by [bb84_protocol]. *)
Definition bb84_fields : list string :=
  [ "alice_bits"; "bob_bits"; "alice_bases"; "bob_bases";
    "alice_polarizations"; "bob_polarizations"; "matched_bases";
    "shared_key"; "error_rate"; "eavesdropping_detected" ]%string.

(** A computation whose outcome does not depend on the generator state it
    starts in: same result or same exception, and after a result the same
    generator state. *)
Definition forgets {S A : Type} (m : np S A) : Prop :=
  forall g1 g2,
    fst (m g1) = fst (m g2) /\
    (forall a, fst (m g1) = Returned a -> snd (m g1) = snd (m g2)).

(** A call is rejected at its entry: either the reseeding itself raises, or
    the call raises [e] in the generator state the reseeding left, before a
    single value is drawn. *)
Definition rejected_at_entry (R : RandomState) {A : Type}
           (call : option Z -> np (mt_state R) A)
           (_seed : option Z) (g : mt_state R) (e : exn) : Prop :=
  match seed_if_given R _seed g with
  | (Raised e0, g0) => call _seed g = (Raised e0, g0)
  | (Returned _, g0) => call _seed g = (Raised e, g0)
  end.

(** The iterations [rows] are those of the loop over the locals [L], entered
    in generator state [g0]: iteration [i] works on the tuple of index [i]. *)
Definition rows_follow (R : RandomState) (L : bb84_locals) (g0 : mt_state R)
           (rows : list iteration) : Prop :=
  let items := zip4 (alice_bits L) (alice_bases L) (bob_bases L)
                    (alice_polarizations L) in
  forall i r,
    nth_error rows i = Some r ->
    exists bit alice_basis bob_basis polarization,
      nth_error (alice_bits L) i = Some bit /\
      nth_error (alice_bases L) i = Some alice_basis /\
      nth_error (bob_bases L) i = Some bob_basis /\
      nth_error (alice_polarizations L) i = Some polarization /\
      nth_error items i = Some (bit, alice_basis, bob_basis, polarization) /\
      iteration_spec R (bit, alice_basis, bob_basis, polarization)
                     (iteration_state R items loop_init g0 i) r.

(** ** A concrete generator

    A small linear congruential generator with the interface of
    [RandomState]; it instantiates the statements below on concrete runs. *)

Definition lcg_next (g : Z) : Z := (g * 1103515245 + 12345) mod 2147483648.

Definition rotate (r : nat) (l : list nat) : list nat := skipn r l ++ firstn r l.

Definition lcg : RandomState :=
  {| mt_state := Z;
     seeded := fun s => s;
     randint2 := fun g => ((g / 65536) mod 2, lcg_next g);
     random_sample := fun g => (Qmake (g mod 1000) 1000, lcg_next g);
     sample_indices := fun n k g =>
       (firstn k (rotate (Z.to_nat (g mod Z.of_nat n)) (seq 0 n)), lcg_next g) |}.

(** ** Reading a polarization back *)

(** The key under which a dict of symbols stores [s], if any. *)
Fixpoint symbol_key (s : string) (d : list ((Z * Z) * string)) : option (Z * Z) :=
  match d with
  | [] => None
  | (k, v) :: d' => if String.eqb s v then Some k else symbol_key s d'
  end.

(** ** The cache of [st.cache_data] (lines 7 and 82)

    Streamlit keys a cached call on the arguments of the decorated function
    and leaves out every parameter whose name starts with an underscore, so
    the key of both functions is [n_qubits] alone ([_seed] is not part of
    it).  On a hit the stored value is returned and the function does not
    run; a call that raises stores nothing.  Each decorated function has a
    cache of its own. *)

(** Equality of keys: an [int] and a [float] never share a key. *)
Definition pynum_eqb (a b : pynum) : bool :=
  match a, b with
  | PyInt x, PyInt y => x =? y
  | PyFloat p, PyFloat q => Qeq_bool p q
  | _, _ => false
  end.

Definition cache : Type := list (pynum * dict).

Fixpoint cache_lookup (k : pynum) (c : cache) : option dict :=
  match c with
  | [] => None
  | (k', d) :: c' => if pynum_eqb k k' then Some d else cache_lookup k c'
  end.

Definition cached_call {S : Type} (f : pynum -> option Z -> np S dict)
           (n_qubits : pynum) (_seed : option Z) : np (cache * S) dict :=
  fun cg =>
    let (c, g) := cg in
    match cache_lookup n_qubits c with
    | Some d => (Returned d, (c, g))
    | None =>
        match f n_qubits _seed g with
        | (Returned d, g') => (Returned d, ((n_qubits, d) :: c, g'))
        | (Raised e, g') => (Raised e, (c, g'))
        end
    end.

(** The two decorated functions, as [main] calls them. *)
Definition bb84_cached (R : RandomState) : pynum -> option Z ->
                                           np (cache * mt_state R) dict :=
  cached_call (bb84_protocol R).

Definition e91_cached (R : RandomState) : pynum -> option Z ->
                                          np (cache * mt_state R) dict :=
  cached_call (e91_protocol R).

(** Every entry of a cache of [bb84_protocol] is a result the function
    returned for the key of the entry. *)
Definition bb84_cache_sound (R : RandomState) (c : cache) : Prop :=
  forall n d,
    cache_lookup n c = Some d ->
    exists _seed g g', bb84_protocol R n _seed g = (Returned d, g').

(** ** What [main] computes from a BB84 result (lines 152-167, 210-220)

    The values handed to [st.metric] and [st.dataframe]; the rendering
    itself and the timing are not modelled. *)

(** An element of a returned list. *)
Inductive pyscalar : Type :=
| PyI (z : Z)
| PyS (s : string)
| PyB (b : bool).

Definition and_then {A B : Type} (o : outcome A) (f : A -> outcome B) : outcome B :=
  match o with
  | Raised e => Raised e
  | Returned a => f a
  end.

Notation "x <~ o ;; k" := (and_then o (fun x => k))
  (at level 61, o at next level, right associativity).

(** [result[key]] *)
Definition getitem (result : dict) (key : string) : outcome pyvalue :=
  match dict_get key result with
  | Some v => Returned v
  | None => Raised KeyError
  end.

Definition nth_or_IndexError {A : Type} (l : list A) (i : nat) : outcome A :=
  match nth_error l i with
  | Some x => Returned x
  | None => Raised IndexError
  end.

(** [v[i]] for an index [i >= 0] *)
Definition index (v : pyvalue) (i : nat) : outcome pyscalar :=
  match v with
  | PyIntList l => x <~ nth_or_IndexError l i ;; Returned (PyI x)
  | PyStrList l => x <~ nth_or_IndexError l i ;; Returned (PyS x)
  | PyBoolList l => x <~ nth_or_IndexError l i ;; Returned (PyB x)
  | PyFloat64 _ => Raised TypeError
  | PyBool _ => Raised TypeError
  end.

(** [sum(v)]: [True] counts as 1; strings cannot be added to 0. *)
Definition py_sum (v : pyvalue) : outcome Z :=
  match v with
  | PyIntList l => Returned (np_sum l)
  | PyBoolList l => Returned (np_sum (map Z.b2z l))
  | PyStrList [] => Returned 0
  | PyStrList (_ :: _) => Raised TypeError
  | PyFloat64 _ => Raised TypeError
  | PyBool _ => Raised TypeError
  end.

(** [len(v)] *)
Definition py_len (v : pyvalue) : outcome Z :=
  match v with
  | PyIntList l => Returned (Z.of_nat (length l))
  | PyStrList l => Returned (Z.of_nat (length l))
  | PyBoolList l => Returned (Z.of_nat (length l))
  | PyFloat64 _ => Raised TypeError
  | PyBool _ => Raised TypeError
  end.

(** The truth value of [v] in a conditional expression. *)
Definition py_truth (v : pyvalue) : bool :=
  match v with
  | PyIntList l => negb (Nat.eqb (length l) 0)
  | PyStrList l => negb (Nat.eqb (length l) 0)
  | PyBoolList l => negb (Nat.eqb (length l) 0)
  | PyFloat64 NaN => true
  | PyFloat64 (Fin q) => negb (Qeq_bool q 0)
  | PyBool b => b
  end.

(** [str(z)], as an f-string prints an [int]. *)
Definition py_str_int (z : Z) : string := NilZero.string_of_int (Z.to_int z).

(** The value of an [st.metric]. *)
Inductive metric_value : Type :=
| MetricInt (z : Z)
| MetricStr (s : string).

(** The four metrics of lines 157-167, in the order of the columns. *)
Definition bb84_metrics (result : dict) (n_qubits : Z)
  : outcome (list (string * metric_value)) :=
  m <~ getitem result "matched_bases" ;;
  total <~ py_sum m ;;
  k <~ getitem result "shared_key" ;;
  len <~ py_len k ;;
  e <~ getitem result "eavesdropping_detected" ;;
  Returned
    [ ("Total Qubits"%string, MetricInt n_qubits);
      ("Matched Bases"%string,
       MetricStr (py_str_int total ++ " / " ++ py_str_int n_qubits)%string);
      ("Shared Key Length"%string, MetricInt len);
      ("Quantum Channel"%string,
       MetricStr (if py_truth e then "Compromised" else "Secure")%string) ].

(** A row of [matched_data] (lines 213-218). *)
Record matched_row : Type := {
  Index : Z;
  Alice_Basis : pyscalar;
  Bob_Basis : pyscalar;
  Bases_Matched : pyscalar
}.

Definition matched_row_at (result : dict) (i : nat) : outcome matched_row :=
  a <~ getitem result "alice_bases" ;;
  x <~ index a i ;;
  b <~ getitem result "bob_bases" ;;
  y <~ index b i ;;
  m <~ getitem result "matched_bases" ;;
  w <~ index m i ;;
  Returned {| Index := Z.of_nat i; Alice_Basis := x; Bob_Basis := y;
              Bases_Matched := w |}.

(** A list comprehension [[f(i) for i in idx]]. *)
Fixpoint comprehension {A : Type} (f : nat -> outcome A) (idx : list nat)
  : outcome (list A) :=
  match idx with
  | [] => Returned []
  | i :: idx' => x <~ f i ;; xs <~ comprehension f idx' ;; Returned (x :: xs)
  end.

(** [matched_data], the comprehension over [range(n_qubits)]. *)
Definition matched_data (result : dict) (n_qubits : Z) : outcome (list matched_row) :=
  comprehension (matched_row_at result) (seq 0 (Z.to_nat n_qubits)).

(** The BB84 branch of [main]: the cached call with the slider's size and
    the seed of the number input, then the metrics and the table. *)
Definition dashboard_bb84 (R : RandomState) (n_qubits random_seed : Z)
  : np (cache * mt_state R) (list (string * metric_value) * list matched_row) :=
  fun cg =>
    match bb84_cached R (PyInt n_qubits) (Some random_seed) cg with
    | (Raised e, cg') => (Raised e, cg')
    | (Returned result, cg') =>
        (metrics <~ bb84_metrics result n_qubits ;;
         table <~ matched_data result n_qubits ;;
         Returned (metrics, table),
         cg')
    end.

(** The inputs the widgets of [main] can deliver (lines 127-144). *)
Definition slider_range (n_qubits : Z) : Prop := 5 <= n_qubits <= 50.
Definition seed_input_range (random_seed : Z) : Prop := 0 <= random_seed <= 1000.

(** The dict of a run of six qubits under seed 42 on the concrete generator. *)
Definition six_qubits_seed_42 : dict :=
  Eval vm_compute in
    match fst (bb84_protocol lcg (PyInt 6) (Some 42) 0) with
    | Returned d => d
    | Raised _ => []
    end.

(** The locals of that run at its [return]. *)
Definition six_qubits_locals : bb84_locals :=
  Eval vm_compute in
    match fst (bb84_simulate lcg (PyInt 6) (Some 42) 0) with
    | Returned L => L
    | Raised _ =>
        {| alice_bits := []; alice_bases := []; bob_bases := [];
           alice_polarizations := []; loop_end := loop_init;
           comparison_subset := []; error_rate := NaN |}
    end.

(** A float size, or an integer size of at most the slider's maximum (and
    not below the least 64-bit integer). *)
Definition size_up_to_slider_max (n : pynum) : Prop :=
  match n with
  | PyInt z => - 2 ^ 63 <= z <= 50
  | PyFloat _ => True
  end.

(** * Properties *)

(** ** Sequencing *)

Lemma bind_returned {S A B : Type} (m : np S A) (f : A -> np S B) g b g' :
  bind m f g = (Returned b, g') ->
  exists a g1, m g = (Returned a, g1) /\ f a g1 = (Returned b, g').
Proof.
  unfold bind. destruct (m g) as [[e | a] g1]; intros H.
  - discriminate.
  - eauto.
Qed.

Lemma bind_step {S A B : Type} (m : np S A) (f : A -> np S B) g a g1 :
  m g = (Returned a, g1) -> bind m f g = f a g1.
Proof. unfold bind. intros ->. reflexivity. Qed.

Lemma bind_raised {S A B : Type} (m : np S A) (f : A -> np S B) g e g1 :
  m g = (Raised e, g1) -> bind m f g = (Raised e, g1).
Proof. unfold bind. intros ->. reflexivity. Qed.

Lemma ret_returned {S A : Type} (a b : A) (g g' : S) :
  ret a g = (Returned b, g') -> a = b /\ g = g'.
Proof. unfold ret. intros H. inversion H. auto. Qed.

Ltac inv_bind H :=
  let a := fresh "a" in
  let g := fresh "g" in
  let E := fresh "E" in
  apply bind_returned in H; destruct H as (a & g & E & H).

Ltac inv_ret H :=
  apply ret_returned in H; destruct H as [? ?]; subst.

(** ** The concrete generator obeys the laws *)

Lemma rotate_length r l : length (rotate r l) = length l.
Proof.
  unfold rotate. rewrite length_app, Nat.add_comm, <- length_app, firstn_skipn.
  reflexivity.
Qed.

Lemma rotate_perm r l : Permutation (rotate r l) l.
Proof.
  unfold rotate. rewrite Permutation_app_comm, firstn_skipn. reflexivity.
Qed.

Lemma firstn_incl_forall {A : Type} (P : A -> Prop) k (l : list A) :
  Forall P l -> Forall P (firstn k l).
Proof.
  intros H. rewrite <- (firstn_skipn k l) in H.
  apply Forall_app in H. tauto.
Qed.

Lemma firstn_nodup {A : Type} k (l : list A) : NoDup l -> NoDup (firstn k l).
Proof.
  intros H. rewrite <- (firstn_skipn k l) in H.
  eapply NoDup_app_remove_r; eauto.
Qed.

Lemma lcg_laws : RandomStateLaws lcg.
Proof.
  constructor; simpl.
  - intros g. unfold is_bit.
    pose proof (Z.mod_pos_bound (g / 65536) 2). lia.
  - intros n k g Hk. rewrite length_firstn, rotate_length, length_seq. lia.
  - intros n k g Hk. apply firstn_incl_forall.
    apply Forall_forall. intros i Hi.
    apply (Permutation_in _ (rotate_perm _ _)) in Hi.
    apply in_seq in Hi. lia.
  - intros n k g Hk. apply firstn_nodup.
    eapply Permutation_NoDup.
    + apply Permutation_sym, rotate_perm.
    + apply seq_NoDup.
Qed.

(** ** The stages of a run *)

Section Stages.

Variable R : RandomState.

Lemma randint2_run g :
  np_random_randint2 R g = (Returned (fst (randint2 R g)), snd (randint2 R g)).
Proof. unfold np_random_randint2. destruct (randint2 R g). reflexivity. Qed.

Lemma random_run g :
  np_random_random R g
  = (Returned (fst (random_sample R g)), snd (random_sample R g)).
Proof. unfold np_random_random. destruct (random_sample R g). reflexivity. Qed.

Lemma randint2_draws_returns k : forall g,
  exists l g', randint2_draws R k g = (Returned l, g') /\ length l = k.
Proof.
  induction k as [| k IH]; intros g; simpl.
  - exists [], g. split; reflexivity.
  - rewrite (bind_step _ _ _ _ _ (randint2_run g)).
    destruct (IH (snd (randint2 R g))) as (l & g' & E & Hl).
    rewrite (bind_step _ _ _ _ _ E).
    exists (fst (randint2 R g) :: l), g'. simpl. rewrite Hl. split; reflexivity.
Qed.

Lemma randint2_draws_length k : forall g l g',
  randint2_draws R k g = (Returned l, g') -> length l = k.
Proof.
  intros g l g' H. destruct (randint2_draws_returns k g) as (l0 & g0 & E & Hl).
  rewrite E in H. inversion H. subst. reflexivity.
Qed.

Lemma randint2_size_inv n g l g' :
  np_random_randint2_size R n g = (Returned l, g') ->
  exists z, n = PyInt z /\ 0 <= z /\
            randint2_draws R (Z.to_nat z) g = (Returned l, g').
Proof.
  destruct n as [z | q]; simpl.
  - destruct (z <? 0) eqn:Hz.
    + discriminate.
    + intros H. exists z. apply Z.ltb_ge in Hz. auto.
  - discriminate.
Qed.

Lemma randint2_size_nonneg z :
  0 <= z ->
  np_random_randint2_size R (PyInt z) = randint2_draws R (Z.to_nat z).
Proof.
  intros Hz. simpl. apply Z.ltb_ge in Hz. rewrite Hz. reflexivity.
Qed.

Lemma seed_if_given_ok _seed g :
  seed_ok _seed -> exists g0, seed_if_given R _seed g = (Returned tt, g0).
Proof.
  destruct _seed as [s |]; simpl; intros H.
  - unfold np_random_seed.
    assert (E : (0 <=? s) && (s <? 2 ^ 32) = true).
    { apply andb_true_intro. split; [apply Z.leb_le | apply Z.ltb_lt]; lia. }
    rewrite E. eauto.
  - eexists. reflexivity.
Qed.

Lemma derive_polarizations_inv pairs : forall g ss g',
  derive_polarizations R pairs g = (Returned ss, g') ->
  g' = g /\
  Forall2 (fun p s => lookup_symbol p polarization_symbols = Some s) pairs ss.
Proof.
  induction pairs as [| [bit basis] pairs IH]; intros g ss g' H; simpl in H.
  - inv_ret H. split; [reflexivity | constructor].
  - inv_bind H. inv_bind H. inv_ret H.
    unfold polarization_of in E.
    destruct (lookup_symbol (bit, basis) polarization_symbols) eqn:Hs;
      [| discriminate].
    inv_ret E. apply IH in E0. destruct E0 as [-> HF].
    split; [reflexivity | constructor; assumption].
Qed.

Lemma lookup_symbol_bits bit basis :
  is_bit bit -> is_bit basis ->
  exists s, lookup_symbol (bit, basis) polarization_symbols = Some s.
Proof.
  intros [-> | ->] [-> | ->]; eexists; reflexivity.
Qed.

Lemma derive_polarizations_returns pairs : forall g,
  Forall (fun p => is_bit (fst p) /\ is_bit (snd p)) pairs ->
  exists ss, derive_polarizations R pairs g = (Returned ss, g).
Proof.
  induction pairs as [| [bit basis] pairs IH]; intros g HF; simpl.
  - eexists. reflexivity.
  - inversion HF as [| ? ? [Hb Hs] HF']. subst. simpl in Hb, Hs.
    destruct (lookup_symbol_bits bit basis Hb Hs) as (s & Es).
    destruct (IH g HF') as (ss & Ess).
    exists (s :: ss).
    unfold polarization_of. rewrite Es.
    unfold bind at 1. unfold ret at 1.
    rewrite (bind_step _ _ _ _ _ Ess). reflexivity.
Qed.

Lemma take_indices_returns arr idx : forall g : mt_state R,
  Forall (fun i => (i < length arr)%nat) idx ->
  take_indices arr idx g = (Returned (at_indices arr idx), g).
Proof.
  induction idx as [| i idx IH]; intros g HF; simpl.
  - reflexivity.
  - inversion HF as [| ? ? Hi HF']. subst.
    destruct (nth_error arr i) eqn:E.
    + rewrite (bind_step _ _ _ _ _ (IH g HF')). unfold ret.
      rewrite (nth_error_nth _ _ 0 E). reflexivity.
    + apply nth_error_None in E. lia.
Qed.

End Stages.

(** ** The loop *)

Section Loop.

Variable R : RandomState.

Lemma eve_returns bit basis g :
  exists o g1, fast_eavesdropping_simulation R bit basis g = (Returned o, g1).
Proof.
  unfold fast_eavesdropping_simulation.
  rewrite (bind_step _ _ _ _ _ (random_run R g)).
  destruct (negb (Qle_bool (2 # 10) (fst (random_sample R g)))).
  - rewrite (bind_step _ _ _ _ _ (randint2_run R _)). unfold ret. eauto.
  - unfold ret. eauto.
Qed.

Lemma eve_draw bit basis g e g1 :
  fast_eavesdropping_simulation R bit basis g = (Returned (Some e), g1) ->
  exists g0, e = fst (randint2 R g0).
Proof.
  unfold fast_eavesdropping_simulation.
  rewrite (bind_step _ _ _ _ _ (random_run R g)).
  destruct (negb (Qle_bool (2 # 10) (fst (random_sample R g)))).
  - rewrite (bind_step _ _ _ _ _ (randint2_run R _)). unfold ret.
    intros H. inversion H. eauto.
  - unfold ret. discriminate.
Qed.

Lemma loop_body_row it v g :
  exists r g',
    loop_body R it v g = (Returned (push v r), g') /\ iteration_spec R it g r.
Proof.
  destruct it as [[[bit alice_basis] bob_basis] polarization].
  destruct (eve_returns bit alice_basis g) as (o & g1 & E).
  unfold loop_body, iteration_spec. rewrite (bind_step _ _ _ _ _ E).
  destruct (alice_basis =? bob_basis) eqn:Hm.
  - exists {| it_eve := o; it_matched := true;
              it_bob := match o with Some e => e | None => bit end;
              it_pol := polarization |}, g1.
    split; [reflexivity |]. exists g1. simpl.
    repeat split; try assumption; discriminate.
  - rewrite (bind_step _ _ _ _ _ (randint2_run R g1)).
    exists {| it_eve := o; it_matched := false;
              it_bob := fst (randint2 R g1);
              it_pol := "?"%string |}, (snd (randint2 R g1)).
    split.
    + unfold ret, push. simpl. rewrite app_nil_r.
      destruct (bob_basis =? 0); reflexivity.
    + exists g1. simpl. repeat split; try assumption; discriminate.
Qed.

Lemma iteration_state_cons it items v g i v1 g1 :
  loop_body R it v g = (Returned v1, g1) ->
  iteration_state R (it :: items) v g (S i) = iteration_state R items v1 g1 i.
Proof.
  intros E. unfold iteration_state. simpl.
  rewrite (bind_step _ _ _ _ _ E). reflexivity.
Qed.

(** The loop never raises; it appends one [iteration] per tuple, each one
    computed in the generator state the preceding iterations left. *)
Lemma for_each_rows items : forall v g,
  exists rows g',
    for_each R items v g = (Returned (fold_left push rows v), g') /\
    length rows = length items /\
    forall i it r,
      nth_error items i = Some it -> nth_error rows i = Some r ->
      iteration_spec R it (iteration_state R items v g i) r.
Proof.
  induction items as [| it items IH]; intros v g.
  - exists [], g. simpl. repeat split. intros [| i]; discriminate.
  - destruct (loop_body_row it v g) as (r & g1 & E & Hr).
    destruct (IH (push v r) g1) as (rows & g' & E' & Hlen & Hrows).
    exists (r :: rows), g'. simpl.
    rewrite (bind_step _ _ _ _ _ E). rewrite E', Hlen.
    repeat split. intros [| i] it' r' Hi Hr'; simpl in Hi, Hr'.
    + inversion Hi. inversion Hr'. subst. exact Hr.
    + rewrite (iteration_state_cons _ _ _ _ _ _ _ E). eauto.
Qed.

Lemma fold_push_fields rows : forall v,
  bob_results (fold_left push rows v) = bob_results v ++ map it_bob rows /\
  bob_polarizations (fold_left push rows v)
  = bob_polarizations v ++ map it_pol rows /\
  eve_interventions (fold_left push rows v)
  = eve_interventions v ++ map (fun r => is_not_None (it_eve r)) rows /\
  matched_bases (fold_left push rows v) = matched_bases v ++ map it_matched rows /\
  shared_key (fold_left push rows v)
  = shared_key v ++ map it_bob (filter it_matched rows).
Proof.
  induction rows as [| r rows IH]; intros v; simpl.
  - repeat rewrite app_nil_r. repeat split.
  - destruct (IH (push v r)) as (H1 & H2 & H3 & H4 & H5).
    rewrite H1, H2, H3, H4, H5. simpl.
    repeat rewrite <- app_assoc. simpl.
    destruct (it_matched r); simpl; repeat split.
Qed.



End Loop.

(** ** Arrays, counts and means *)

Lemma zip4_length a b c d k :
  length a = k -> length b = k -> length c = k -> length d = k ->
  length (zip4 a b c d) = k.
Proof.
  revert b c d k.
  induction a as [| x a IH]; intros [| y b] [| z c] [| w d] k Ha Hb Hc Hd;
    simpl in *; try congruence.
  destruct k as [| k]; [discriminate |].
  f_equal. apply IH; congruence.
Qed.

Lemma zip4_nth a b c d : forall i x y z w,
  nth_error (zip4 a b c d) i = Some (x, y, z, w) ->
  nth_error a i = Some x /\ nth_error b i = Some y /\
  nth_error c i = Some z /\ nth_error d i = Some w.
Proof.
  revert b c d.
  induction a as [| x0 a IH]; intros [| y0 b] [| z0 c] [| w0 d] i x y z w H;
    simpl in H; try (destruct i; discriminate).
  destruct i as [| i]; simpl in *.
  - inversion H. subst. auto.
  - eauto.
Qed.

Lemma array_ne_length a : forall b,
  length a = length b -> length (array_ne a b) = length a.
Proof.
  induction a as [| x a IH]; intros [| y b] H; simpl in *; try congruence.
  f_equal. apply IH. congruence.
Qed.

Lemma array_eq_length a : forall b,
  length a = length b -> length (array_eq a b) = length a.
Proof.
  induction a as [| x a IH]; intros [| y b] H; simpl in *; try congruence.
  f_equal. apply IH. congruence.
Qed.

Lemma array_ne_sum a : forall b,
  np_sum (array_ne a b) = Z.of_nat (count_differing a b).
Proof.
  induction a as [| x a IH]; intros [| y b]; simpl; try reflexivity.
  unfold np_sum in *. rewrite IH.
  destruct (x =? y); simpl Z.b2z; lia.
Qed.

Lemma array_eq_sum a : forall b,
  np_sum (array_eq a b) = Z.of_nat (count_agreeing a b).
Proof.
  induction a as [| x a IH]; intros [| y b]; simpl; try reflexivity.
  unfold np_sum in *. rewrite IH.
  destruct (x =? y); simpl Z.b2z; lia.
Qed.

Lemma count_differing_le a : forall b, (count_differing a b <= length a)%nat.
Proof.
  induction a as [| x a IH]; intros [| y b]; simpl; try lia.
  specialize (IH b). destruct (x =? y); lia.
Qed.

Lemma count_agreeing_le a : forall b, (count_agreeing a b <= length a)%nat.
Proof.
  induction a as [| x a IH]; intros [| y b]; simpl; try lia.
  specialize (IH b). destruct (x =? y); lia.
Qed.

Lemma at_indices_length arr idx : length (at_indices arr idx) = length idx.
Proof. unfold at_indices. apply length_map. Qed.

Lemma pos_of_length (k : nat) : (0 < k)%nat -> Z.pos (Pos.of_nat k) = Z.of_nat k.
Proof.
  intros H. destruct k as [| k]; [lia |].
  rewrite <- Pos.of_nat_succ, Zpos_P_of_succ_nat. lia.
Qed.

(** The mean of a non-empty 0/1 array is the ratio count/size. *)
Lemma np_mean_ratio xs :
  xs <> [] -> np_mean xs = Fin (np_sum xs # Pos.of_nat (length xs)).
Proof. destruct xs; [congruence | reflexivity]. Qed.

Lemma ratio_in_unit (c k : nat) :
  (0 < k)%nat -> (c <= k)%nat ->
  in_unit_interval (Fin (Z.of_nat c # Pos.of_nat k)).
Proof.
  intros Hk Hc. simpl. unfold Qle. simpl.
  rewrite (pos_of_length k Hk). lia.
Qed.

Lemma nonempty_length {A : Type} (l : list A) : (0 < length l)%nat -> l <> [].
Proof. destruct l; simpl; [lia | discriminate]. Qed.

(** ** Anatomy of a run *)

Section Runs.

Variable R : RandomState.

Lemma choice_run z g :
  0 <= z ->
  np_random_choice R (PyInt z) (floordiv2 (PyInt z)) g
  = (Returned (fst (sample_indices R (Z.to_nat z) (Z.to_nat (z / 2)) g)),
     snd (sample_indices R (Z.to_nat z) (Z.to_nat (z / 2)) g)).
Proof.
  intros Hz. simpl.
  assert (H2 : 0 <= z / 2) by (apply Z.div_pos; lia).
  assert (Hle : z / 2 <= z) by (apply Z.div_le_upper_bound; lia).
  replace (z / 2 <? 0) with false by (symmetry; apply Z.ltb_ge; lia).
  replace (z <? z / 2) with false by (symmetry; apply Z.ltb_ge; lia).
  assert (E : (z <=? 0) && negb (z / 2 =? 0) = false).
  { destruct (z <=? 0) eqn:E0; [| reflexivity].
    apply Z.leb_le in E0. assert (z = 0) by lia. subst. reflexivity. }
  rewrite E. destruct (sample_indices R _ _ g). reflexivity.
Qed.

Lemma half_le z : 0 <= z -> (Z.to_nat (z / 2) <= Z.to_nat z)%nat.
Proof.
  intros Hz. apply Z2Nat.inj_le.
  - apply Z.div_pos; lia.
  - lia.
  - apply Z.div_le_upper_bound; lia.
Qed.

(** Lines 12-29, read backwards from a returned value. *)
Lemma bb84_prepare_inv n _seed g a_bits a_bases b_bases a_pols g3 :
  bb84_prepare R n _seed g = (Returned (a_bits, a_bases, b_bases, a_pols), g3) ->
  exists z g0 g1 g2,
    n = PyInt z /\ 0 <= z /\
    seed_if_given R _seed g = (Returned tt, g0) /\
    randint2_draws R (Z.to_nat z) g0 = (Returned a_bits, g1) /\
    randint2_draws R (Z.to_nat z) g1 = (Returned a_bases, g2) /\
    randint2_draws R (Z.to_nat z) g2 = (Returned b_bases, g3) /\
    Forall2 (fun p s => lookup_symbol p polarization_symbols = Some s)
            (combine a_bits a_bases) a_pols.
Proof.
  unfold bb84_prepare. intros H.
  inv_bind H. destruct a.
  inv_bind H. inv_bind H. inv_bind H. inv_bind H. inv_ret H.
  inversion H; subst; clear H.
  apply randint2_size_inv in E0. destruct E0 as (z & -> & Hz & E0).
  apply randint2_size_inv in E1. destruct E1 as (z1 & Hz1 & _ & E1).
  apply randint2_size_inv in E2. destruct E2 as (z2 & Hz2 & _ & E2).
  inversion Hz1; inversion Hz2; subst z1 z2.
  apply derive_polarizations_inv in E3. destruct E3 as [-> HF].
  exists z, g0, g1, g2. repeat split; assumption.
Qed.

(** The whole body, read backwards from the returned locals. *)
Lemma bb84_simulate_inv n _seed g L g' :
  bb84_simulate R n _seed g = (Returned L, g') ->
  exists g3 g4,
    bb84_prepare R n _seed g
    = (Returned (alice_bits L, alice_bases L, bob_bases L, alice_polarizations L),
       g3) /\
    for_each R (zip4 (alice_bits L) (alice_bases L) (bob_bases L)
                     (alice_polarizations L)) loop_init g3
    = (Returned (loop_end L), g4) /\
    bb84_estimate R n (alice_bits L) (bob_results (loop_end L)) g4
    = (Returned (comparison_subset L, error_rate L), g').
Proof.
  unfold bb84_simulate. intros H.
  inv_bind H. destruct a as [[[a_bits a_bases] b_bases] a_pols].
  inv_bind H. inv_bind H. inv_ret H. simpl.
  exists g0, g1. destruct a0. repeat split; assumption.
Qed.

Lemma bb84_protocol_inv n _seed g d g' :
  bb84_protocol R n _seed g = (Returned d, g') ->
  exists L, bb84_simulate R n _seed g = (Returned L, g') /\ d = bb84_result L.
Proof.
  unfold bb84_protocol. intros H. inv_bind H. inv_ret H. eauto.
Qed.

Lemma bb84_protocol_of_simulate n _seed g L g' :
  bb84_simulate R n _seed g = (Returned L, g') ->
  bb84_protocol R n _seed g = (Returned (bb84_result L), g').
Proof.
  intros H. unfold bb84_protocol. rewrite (bind_step _ _ _ _ _ H). reflexivity.
Qed.

(** The lengths and the iterations behind the returned locals. *)
Lemma bb84_anatomy n _seed g L g' :
  bb84_simulate R n _seed g = (Returned L, g') ->
  let items := zip4 (alice_bits L) (alice_bases L) (bob_bases L)
                    (alice_polarizations L) in
  exists z rows,
    n = PyInt z /\ 0 <= z /\
    length (alice_bits L) = Z.to_nat z /\
    length (alice_bases L) = Z.to_nat z /\
    length (bob_bases L) = Z.to_nat z /\
    length (alice_polarizations L) = Z.to_nat z /\
    length items = Z.to_nat z /\
    length rows = Z.to_nat z /\
    loop_end L = fold_left push rows loop_init /\
    forall i it r,
      nth_error items i = Some it -> nth_error rows i = Some r ->
      iteration_spec R it
        (iteration_state R items loop_init (snd (bb84_prepare R n _seed g)) i) r.
Proof.
  intros H items. apply bb84_simulate_inv in H.
  destruct H as (g3 & g4 & Hprep & Hloop & _).
  pose proof Hprep as Hp.
  apply bb84_prepare_inv in Hp.
  destruct Hp as (z & g0 & g1 & g2 & -> & Hz & _ & Ea & Eb & Ec & HF).
  apply randint2_draws_length in Ea, Eb, Ec.
  assert (Hpol : length (alice_polarizations L) = Z.to_nat z).
  { apply Forall2_length in HF. rewrite length_combine in HF. lia. }
  assert (Hitems : length items = Z.to_nat z)
    by (apply zip4_length; assumption).
  destruct (for_each_rows R items loop_init g3) as (rows & g5 & E & Hlen & Hrows).
  fold items in Hloop. rewrite Hloop in E. inversion E; subst.
  exists z, rows. rewrite Hprep. simpl.
  repeat split; try assumption; try congruence.
Qed.

Lemma e91_simulate_inv n _seed g L g' :
  e91_simulate R n _seed g = (Returned L, g') ->
  exists z,
    n = PyInt z /\ 0 <= z /\
    length (e91_alice_bases L) = Z.to_nat z /\
    length (e91_bob_bases L) = Z.to_nat z /\
    correlated_bits L = array_eq (e91_alice_bases L) (e91_bob_bases L) /\
    correlation_rate L = np_mean (correlated_bits L).
Proof.
  unfold e91_simulate. intros H.
  inv_bind H. inv_bind H. inv_bind H. inv_ret H. simpl.
  apply randint2_size_inv in E0. destruct E0 as (z & -> & Hz & E0).
  apply randint2_size_inv in E1. destruct E1 as (z1 & Hz1 & _ & E1).
  inversion Hz1; subst z1.
  apply randint2_draws_length in E0, E1.
  exists z. repeat split; assumption.
Qed.

Lemma e91_protocol_inv n _seed g d g' :
  e91_protocol R n _seed g = (Returned d, g') ->
  exists L, e91_simulate R n _seed g = (Returned L, g') /\ d = e91_result L.
Proof.
  unfold e91_protocol. intros H. inv_bind H. inv_ret H. eauto.
Qed.

(** A result is returned only for a non-negative integer size and an
    accepted seed: the statements below cover every returned result. *)
Lemma seed_if_given_inv _seed g u g0 :
  seed_if_given R _seed g = (Returned u, g0) -> seed_ok _seed.
Proof.
  destruct _seed as [s |]; simpl; [| trivial].
  unfold np_random_seed.
  destruct ((0 <=? s) && (s <? 2 ^ 32)) eqn:E; [| discriminate].
  intros _. apply andb_prop in E. destruct E as [E1 E2].
  apply Z.leb_le in E1. apply Z.ltb_lt in E2. lia.
Qed.

Lemma bb84_result_domain n _seed g d g' :
  bb84_protocol R n _seed g = (Returned d, g') ->
  exists z, n = PyInt z /\ 0 <= z /\ seed_ok _seed.
Proof.
  intros H. apply bb84_protocol_inv in H. destruct H as (L & H & _).
  apply bb84_simulate_inv in H. destruct H as (g3 & g4 & Hp & _).
  apply bb84_prepare_inv in Hp.
  destruct Hp as (z & g0 & g1 & g2 & -> & Hz & Hseed & _).
  exists z. repeat split; try assumption.
  apply (seed_if_given_inv _ _ _ _ Hseed).
Qed.

Lemma e91_result_domain n _seed g d g' :
  e91_protocol R n _seed g = (Returned d, g') ->
  exists z, n = PyInt z /\ 0 <= z /\ seed_ok _seed.
Proof.
  intros H. apply e91_protocol_inv in H. destruct H as (L & H & _).
  pose proof H as H'. apply e91_simulate_inv in H'.
  destruct H' as (z & -> & Hz & _).
  exists z. repeat split; try assumption.
  unfold e91_simulate in H. inv_bind H.
  apply (seed_if_given_inv _ _ _ _ E).
Qed.

End Runs.

(** ** Runs under the laws of the generator *)

Section Lawful.

Variable R : RandomState.
Hypothesis HR : RandomStateLaws R.

Lemma randint2_draws_bits k : forall g l g',
  randint2_draws R k g = (Returned l, g') -> Forall is_bit l.
Proof.
  induction k as [| k IH]; intros g l g' H; simpl in H.
  - inv_ret H. constructor.
  - inv_bind H. inv_bind H. inv_ret H.
    rewrite randint2_run in E. inversion E; subst.
    constructor; [apply (randint2_bit R HR) | eauto].
Qed.

Lemma combine_bits a : forall b,
  Forall is_bit a -> Forall is_bit b ->
  Forall (fun p => is_bit (fst p) /\ is_bit (snd p)) (combine a b).
Proof.
  induction a as [| x a IH]; intros [| y b] Ha Hb; simpl; try constructor.
  - inversion Ha; inversion Hb; subst. simpl. auto.
  - inversion Ha; inversion Hb; subst. auto.
Qed.

Lemma bb84_prepare_returns z _seed g :
  0 <= z -> seed_ok _seed ->
  exists a_bits a_bases b_bases a_pols g3,
    bb84_prepare R (PyInt z) _seed g
    = (Returned (a_bits, a_bases, b_bases, a_pols), g3) /\
    Forall is_bit a_bits /\ Forall is_bit a_bases /\ Forall is_bit b_bases.
Proof.
  intros Hz Hs. unfold bb84_prepare.
  destruct (seed_if_given_ok R _seed g Hs) as (g0 & E0).
  rewrite (bind_step _ _ _ _ _ E0).
  rewrite !randint2_size_nonneg by assumption.
  destruct (randint2_draws_returns R (Z.to_nat z) g0) as (a & g1 & E1 & _).
  destruct (randint2_draws_returns R (Z.to_nat z) g1) as (b & g2 & E2 & _).
  destruct (randint2_draws_returns R (Z.to_nat z) g2) as (c & g3 & E3 & _).
  rewrite (bind_step _ _ _ _ _ E1), (bind_step _ _ _ _ _ E2),
    (bind_step _ _ _ _ _ E3).
  pose proof (randint2_draws_bits _ _ _ _ E1) as Ba.
  pose proof (randint2_draws_bits _ _ _ _ E2) as Bb.
  pose proof (randint2_draws_bits _ _ _ _ E3) as Bc.
  destruct (derive_polarizations_returns R (combine a b) g3
              (combine_bits a b Ba Bb)) as (ss & Ess).
  rewrite (bind_step _ _ _ _ _ Ess). unfold ret.
  exists a, b, c, ss, g3. auto.
Qed.

Lemma bb84_estimate_returns z a_bits bob g :
  0 <= z -> length a_bits = Z.to_nat z -> length bob = Z.to_nat z ->
  let sub := fst (sample_indices R (Z.to_nat z) (Z.to_nat (z / 2)) g) in
  bb84_estimate R (PyInt z) a_bits bob g
  = (Returned (sub, np_mean (array_ne (at_indices a_bits sub)
                                      (at_indices bob sub))),
     snd (sample_indices R (Z.to_nat z) (Z.to_nat (z / 2)) g)).
Proof.
  intros Hz Ha Hb sub. unfold bb84_estimate.
  rewrite (bind_step _ _ _ _ _ (choice_run R z g Hz)). fold sub.
  pose proof (sample_range R HR _ _ g (half_le z Hz)) as Hr. fold sub in Hr.
  rewrite (bind_step _ _ _ _ _ (take_indices_returns R a_bits sub _
             ltac:(rewrite Ha; exact Hr))).
  rewrite (bind_step _ _ _ _ _ (take_indices_returns R bob sub _
             ltac:(rewrite Hb; exact Hr))).
  reflexivity.
Qed.

Lemma iteration_bob_bit it g r :
  is_bit (fst (fst (fst it))) -> iteration_spec R it g r -> is_bit (it_bob r).
Proof.
  destruct it as [[[bit alice_basis] bob_basis] polarization]. simpl.
  intros Hbit (g1 & E & _ & Ht & Hf).
  destruct (it_matched r).
  - destruct (Ht eq_refl) as [_ ->].
    destruct (it_eve r) as [e |] eqn:Ee; [| assumption].
    apply eve_draw in E. destruct E as (g0 & ->). apply (randint2_bit R HR).
  - destruct (Hf eq_refl) as [_ ->]. apply (randint2_bit R HR).
Qed.

(** [bb84_protocol] returns for every non-negative size and accepted seed;
    the error rate is the mean over the drawn subset. *)
Lemma bb84_run z _seed g :
  0 <= z -> seed_ok _seed ->
  exists L g' g4,
    bb84_simulate R (PyInt z) _seed g = (Returned L, g') /\
    comparison_subset L
    = fst (sample_indices R (Z.to_nat z) (Z.to_nat (z / 2)) g4) /\
    error_rate L
    = np_mean (array_ne
                 (at_indices (alice_bits L) (comparison_subset L))
                 (at_indices (bob_results (loop_end L)) (comparison_subset L))) /\
    Forall is_bit (alice_bits L) /\ Forall is_bit (alice_bases L) /\
    Forall is_bit (bob_bases L).
Proof.
  intros Hz Hs.
  destruct (bb84_prepare_returns z _seed g Hz Hs)
    as (a & b & c & ss & g3 & Ep & Ba & Bb & Bc).
  pose proof Ep as Hp. apply bb84_prepare_inv in Hp.
  destruct Hp as (z0 & g0 & g1 & g2 & Hz0 & _ & _ & Ea & Eb & Ec & HF).
  inversion Hz0; subst z0.
  apply randint2_draws_length in Ea, Eb, Ec.
  assert (Hss : length ss = Z.to_nat z).
  { apply Forall2_length in HF. rewrite length_combine in HF. lia. }
  destruct (for_each_rows R (zip4 a b c ss) loop_init g3)
    as (rows & g4 & El & Hlen & _).
  rewrite (zip4_length a b c ss (Z.to_nat z) Ea Eb Ec Hss) in Hlen.
  destruct (fold_push_fields rows loop_init) as (Hbob & _).
  simpl in Hbob.
  assert (Hb : length (bob_results (fold_left push rows loop_init)) = Z.to_nat z).
  { rewrite Hbob, length_map. exact Hlen. }
  pose proof (bb84_estimate_returns z a _ g4 Hz Ea Hb) as Ee.
  eexists _, _, g4. split.
  - unfold bb84_simulate.
    rewrite (bind_step _ _ _ _ _ Ep).
    rewrite (bind_step _ _ _ _ _ El).
    rewrite (bind_step _ _ _ _ _ Ee). reflexivity.
  - simpl. auto.
Qed.

End Lawful.

(** * The claims *)

(** ** The polarization encoding *)

Lemma lookup_symbol_domain k s :
  lookup_symbol k polarization_symbols = Some s ->
  (k = (0, 0) /\ s = sym_up) \/ (k = (0, 1) /\ s = sym_up_right) \/
  (k = (1, 0) /\ s = sym_right) \/ (k = (1, 1) /\ s = sym_down_right).
Proof.
  destruct k as [a b]. simpl.
  destruct (a =? 0) eqn:A0; destruct (b =? 0) eqn:B0;
    destruct (b =? 1) eqn:B1; destruct (a =? 1) eqn:A1; simpl;
    intros H; inversion H; subst;
    repeat match goal with
           | E : (_ =? _) = true |- _ => apply Z.eqb_eq in E; subst
           end; try tauto; exfalso; lia.
Qed.

Lemma polarization_alphabet_nodup : NoDup polarization_alphabet.
Proof.
  unfold polarization_alphabet, sym_up, sym_up_right, sym_right, sym_down_right.
  repeat (constructor; [simpl; intuition discriminate |]). constructor.
Qed.

Lemma polarization_of_lookup {S : Type} (bit basis : Z) (g g' : S) (s : string) :
  polarization_of bit basis g = (Returned s, g') <->
  lookup_symbol (bit, basis) polarization_symbols = Some s /\ g' = g.
Proof.
  unfold polarization_of.
  destruct (lookup_symbol (bit, basis) polarization_symbols) as [s0 |].
  - unfold ret. split.
    + intros H. inversion H. auto.
    + intros [H ->]. inversion H. reflexivity.
  - unfold raise. split.
    + discriminate.
    + intros [H _]. discriminate.
Qed.

Lemma lookup_symbol_injective k1 k2 s :
  lookup_symbol k1 polarization_symbols = Some s ->
  lookup_symbol k2 polarization_symbols = Some s -> k1 = k2.
Proof.
  intros H1 H2.
  apply lookup_symbol_domain in H1, H2.
  unfold sym_up, sym_up_right, sym_right, sym_down_right in *.
  destruct H1 as [[-> ->] | [[-> ->] | [[-> ->] | [-> ->]]]];
    destruct H2 as [[-> E] | [[-> E] | [[-> E] | [-> E]]]];
    try reflexivity; discriminate E.
Qed.

Lemma forall2_nth_right {A B : Type} (P : A -> B -> Prop) (l : list A) :
  forall (c : list B) i w,
    Forall2 P l c -> nth_error c i = Some w ->
    exists x, nth_error l i = Some x /\ P x w.
Proof.
  induction l as [| x l IH]; intros c i w HF Hw; inversion HF; subst.
  - destruct i; discriminate.
  - destruct i as [| i]; simpl in *.
    + inversion Hw. subst. eauto.
    + eauto.
Qed.

Lemma combine_nth_error {A B : Type} (a : list A) : forall (b : list B) i x y,
  nth_error (combine a b) i = Some (x, y) ->
  nth_error a i = Some x /\ nth_error b i = Some y.
Proof.
  induction a as [| x0 a IH]; intros [| y0 b] i x y H; simpl in H;
    try (destruct i; discriminate).
  destruct i as [| i]; simpl in *.
  - inversion H. auto.
  - eauto.
Qed.

(** C8: the polarization encoding of [bb84_protocol], [polarization_of], is
    the lookup in [polarization_symbols]: it is defined on each of the four
    (bit, basis) pairs with bit and basis in {0,1}, never raises there and
    leaves the generator alone, yields one of four fixed symbols, and no
    symbol belongs to two pairs.  The comprehension of line 29 applies it to
    each pair, so in a run two indices with the same polarization have the
    same bit and the same basis. *)
Theorem polarization_total_injective :
  (forall (S : Type) (bit basis : bool) (g : S),
      exists s,
        polarization_of (Z.b2z bit) (Z.b2z basis) g = (Returned s, g) /\
        In s polarization_alphabet) /\
  (forall k1 k2 s,
      lookup_symbol k1 polarization_symbols = Some s ->
      lookup_symbol k2 polarization_symbols = Some s -> k1 = k2) /\
  map snd polarization_symbols = polarization_alphabet /\
  NoDup polarization_alphabet /\
  length polarization_alphabet = 4%nat /\
  (forall (S : Type) (bit basis : Z) (g g' : S) (s : string),
      polarization_of bit basis g = (Returned s, g') <->
      lookup_symbol (bit, basis) polarization_symbols = Some s /\ g' = g) /\
  (forall (S : Type) (g : S),
      polarization_of 0 0 g = (Returned sym_up, g) /\
      polarization_of 0 1 g = (Returned sym_up_right, g) /\
      polarization_of 1 0 g = (Returned sym_right, g) /\
      polarization_of 1 1 g = (Returned sym_down_right, g)) /\
  (forall (S : Type) (b1 s1 b2 s2 : Z) (g1 h1 g2 h2 : S) (sym : string),
      polarization_of b1 s1 g1 = (Returned sym, h1) ->
      polarization_of b2 s2 g2 = (Returned sym, h2) ->
      b1 = b2 /\ s1 = s2) /\
  (forall (R : RandomState) (pairs : list (Z * Z)) (g g' : mt_state R)
          (ss : list string),
      derive_polarizations R pairs g = (Returned ss, g') ->
      g' = g /\
      Forall2 (fun p s => polarization_of (fst p) (snd p) g = (Returned s, g))
              pairs ss) /\
  (forall (R : RandomState) (n : pynum) (_seed : option Z) (g : mt_state R)
          (L : bb84_locals) (g' : mt_state R),
      bb84_simulate R n _seed g = (Returned L, g') ->
      length (alice_polarizations L) = length (alice_bits L) /\
      forall i j p,
        nth_error (alice_polarizations L) i = Some p ->
        nth_error (alice_polarizations L) j = Some p ->
        nth_error (alice_bits L) i = nth_error (alice_bits L) j /\
        nth_error (alice_bases L) i = nth_error (alice_bases L) j).
Proof.
  split; [| split; [| split; [| split; [| split; [| split; [| split;
    [| split; [| split]]]]]]]].
  - intros S [|] [|] g; eexists; (split; [reflexivity | simpl; auto]).
  - exact lookup_symbol_injective.
  - reflexivity.
  - exact polarization_alphabet_nodup.
  - reflexivity.
  - intros S bit basis g g' s. apply polarization_of_lookup.
  - intros S g. repeat split.
  - intros S b1 s1 b2 s2 g1 h1 g2 h2 sym H1 H2.
    apply polarization_of_lookup in H1, H2.
    destruct H1 as [H1 _]. destruct H2 as [H2 _].
    pose proof (lookup_symbol_injective _ _ _ H1 H2) as E.
    inversion E. auto.
  - intros R pairs g g' ss H.
    apply derive_polarizations_inv in H. destruct H as [-> HF].
    split; [reflexivity |].
    induction HF as [| [b s] sym pairs ss Hp HF IH]; constructor.
    + simpl. apply polarization_of_lookup. auto.
    + exact IH.
  - intros R n _seed g L g' H.
    apply bb84_simulate_inv in H. destruct H as (g3 & g4 & Ep & _).
    apply bb84_prepare_inv in Ep.
    destruct Ep as (z & h0 & h1 & h2 & _ & _ & _ & Ea & Eb & _ & HF).
    apply randint2_draws_length in Ea, Eb.
    split.
    { apply Forall2_length in HF. rewrite length_combine in HF. lia. }
    intros i j p Hi Hj.
    destruct (forall2_nth_right _ _ _ _ _ HF Hi) as ([bi si] & Ni & Li).
    destruct (forall2_nth_right _ _ _ _ _ HF Hj) as ([bj sj] & Nj & Lj).
    pose proof (lookup_symbol_injective _ _ _ Li Lj) as E.
    inversion E; subst bj sj.
    apply combine_nth_error in Ni, Nj.
    destruct Ni as [-> ->]. destruct Nj as [-> ->]. auto.
Qed.

Lemma polarization_total_injective_witness :
  nth_error (alice_bits six_qubits_locals) 1
  = nth_error (alice_bits six_qubits_locals) 3 /\
  nth_error (alice_bases six_qubits_locals) 1
  = nth_error (alice_bases six_qubits_locals) 3.
Proof.
  destruct polarization_total_injective
    as (_ & _ & _ & _ & _ & _ & _ & _ & _ & Hrun).
  destruct (Hrun lcg (PyInt 6) (Some 42) 0 six_qubits_locals 1939145516)
    as [_ Hsame].
  - vm_compute. reflexivity.
  - apply (Hsame 1%nat 3%nat sym_down_right); reflexivity.
Defined.

(** ** Determinism under a seed *)

Lemma bind_forgets {S A B : Type} (m : np S A) (f : A -> np S B) :
  forgets m -> forgets (bind m f).
Proof.
  intros Hm g1 g2. destruct (Hm g1 g2) as [Hr Hs]. unfold bind.
  destruct (m g1) as [[e | a] h1] eqn:E1; destruct (m g2) as [[e2 | a2] h2] eqn:E2;
    simpl in Hr; try discriminate.
  - inversion Hr; subst e2. split; [reflexivity | intros a Ha; discriminate Ha].
  - inversion Hr; subst a2. specialize (Hs a eq_refl). simpl in Hs. subst h2.
    split; reflexivity.
Qed.

(** After [np.random.seed(s)] nothing of the earlier generator state is left. *)
Lemma seed_forgets (R : RandomState) (s : Z) : forgets (np_random_seed R s).
Proof.
  intros g1 g2. unfold np_random_seed.
  destruct ((0 <=? s) && (s <? 2 ^ 32)); simpl.
  - split; reflexivity.
  - split; [reflexivity | discriminate].
Qed.

Lemma bb84_protocol_forgets (R : RandomState) n s :
  forgets (bb84_protocol R n (Some s)).
Proof.
  unfold bb84_protocol, bb84_simulate, bb84_prepare.
  do 3 apply bind_forgets. apply seed_forgets.
Qed.

Lemma e91_protocol_forgets (R : RandomState) n s :
  forgets (e91_protocol R n (Some s)).
Proof.
  unfold e91_protocol, e91_simulate.
  do 2 apply bind_forgets. apply seed_forgets.
Qed.

(** C4: with an integer seed supplied, the outcome of [bb84_protocol] (the
    whole returned dict, or the exception) is the same whatever state the
    global generator was in before the call, so two invocations with the same
    [(n_qubits, seed)] agree in every field; likewise for [e91_protocol]. *)
Theorem seeded_runs_deterministic (R : RandomState) (n : pynum) (s : Z)
        (g1 g2 : mt_state R) :
  fst (bb84_protocol R n (Some s) g1) = fst (bb84_protocol R n (Some s) g2) /\
  fst (e91_protocol R n (Some s) g1) = fst (e91_protocol R n (Some s) g2).
Proof.
  split.
  - apply (bb84_protocol_forgets R n s g1 g2).
  - apply (e91_protocol_forgets R n s g1 g2).
Qed.

(** Without a seed the outcome does depend on the generator state. *)
Example unseeded_runs_differ :
  fst (e91_protocol lcg (PyInt 2) None 0) <> fst (e91_protocol lcg (PyInt 2) None 65536).
Proof. vm_compute. discriminate. Qed.

(** ** Sizes that are not positive integers *)

Lemma rejected_by_first_draw (R : RandomState) (n : pynum) (e : exn) :
  (forall g, np_random_randint2_size R n g = (Raised e, g)) ->
  forall _seed g,
    rejected_at_entry R (bb84_protocol R n) _seed g e /\
    rejected_at_entry R (e91_protocol R n) _seed g e.
Proof.
  intros Hn _seed g. unfold rejected_at_entry.
  destruct (seed_if_given R _seed g) as [[e0 | u] g0] eqn:E.
  - split.
    + unfold bb84_protocol, bb84_simulate, bb84_prepare.
      do 3 (erewrite bind_raised; [reflexivity |]). exact E.
    + unfold e91_protocol, e91_simulate.
      do 2 (erewrite bind_raised; [reflexivity |]). exact E.
  - split.
    + unfold bb84_protocol, bb84_simulate, bb84_prepare.
      do 2 (erewrite bind_raised; [reflexivity |]).
      rewrite (bind_step _ _ _ _ _ E).
      erewrite bind_raised; [reflexivity | apply Hn].
    + unfold e91_protocol, e91_simulate.
      erewrite bind_raised; [reflexivity |].
      rewrite (bind_step _ _ _ _ _ E).
      erewrite bind_raised; [reflexivity | apply Hn].
Qed.

(** C2, as amended: a negative integer [n_qubits] makes both protocols raise
    [ValueError], and a float [n_qubits] makes both raise [TypeError], at
    their first draw: after the optional reseeding and before any value is
    drawn.  No result is returned and the size is not clamped.  (When the
    reseeding itself raises, that exception is the outcome.) *)
Theorem negative_or_float_size_raises (R : RandomState) (_seed : option Z)
        (g : mt_state R) :
  (forall p : positive,
      rejected_at_entry R (bb84_protocol R (PyInt (Z.neg p))) _seed g ValueError /\
      rejected_at_entry R (e91_protocol R (PyInt (Z.neg p))) _seed g ValueError) /\
  (forall q : Q,
      rejected_at_entry R (bb84_protocol R (PyFloat q)) _seed g TypeError /\
      rejected_at_entry R (e91_protocol R (PyFloat q)) _seed g TypeError).
Proof.
  split.
  - intros p. apply rejected_by_first_draw. intros g0. reflexivity.
  - intros q. apply rejected_by_first_draw. intros g0. reflexivity.
Qed.

(** C2, as stated, fails at [n_qubits = 0]: neither protocol rejects the
    call; both return a result whose sequences are empty. *)
Lemma zero_qubits_not_rejected :
  (exists d,
      fst (bb84_protocol lcg (PyInt 0) (Some 0) 0) = Returned d /\
      dict_get "alice_bits" d = Some (PyIntList []) /\
      dict_get "error_rate" d = Some (PyFloat64 NaN)) /\
  (exists d,
      fst (e91_protocol lcg (PyInt 0) (Some 0) 0) = Returned d /\
      dict_get "alice_bases" d = Some (PyIntList []) /\
      dict_get "correlation_rate" d = Some (PyFloat64 NaN)).
Proof.
  split; eexists; (split; [vm_compute; reflexivity | split; reflexivity]).
Qed.

(** ** The iterations behind a returned result *)

Section Rows.

Variable R : RandomState.
Hypothesis HR : RandomStateLaws R.

Lemma forall_nth {A : Type} (P : A -> Prop) (l : list A) i x :
  Forall P l -> nth_error l i = Some x -> P x.
Proof.
  intros HF Hx. rewrite Forall_forall in HF. apply HF.
  eapply nth_error_In; eauto.
Qed.

(** Every returned run is a sequence of iterations, one per qubit, each
    following lines 45-62 on the tuple of its index. *)
Lemma bb84_run_rows z _seed g :
  0 <= z -> seed_ok _seed ->
  exists L g' rows,
    bb84_simulate R (PyInt z) _seed g = (Returned L, g') /\
    (length (alice_bits L) = Z.to_nat z /\
     length (alice_bases L) = Z.to_nat z /\
     length (bob_bases L) = Z.to_nat z /\
     length (alice_polarizations L) = Z.to_nat z /\
     length rows = Z.to_nat z) /\
    (bob_results (loop_end L) = map it_bob rows /\
     bob_polarizations (loop_end L) = map it_pol rows /\
     eve_interventions (loop_end L)
     = map (fun r => is_not_None (it_eve r)) rows /\
     matched_bases (loop_end L) = map it_matched rows /\
     shared_key (loop_end L) = map it_bob (filter it_matched rows)) /\
    (Forall is_bit (alice_bits L) /\ Forall is_bit (alice_bases L) /\
     Forall is_bit (bob_bases L)) /\
    rows_follow R L (snd (bb84_prepare R (PyInt z) _seed g)) rows.
Proof.
  intros Hz Hs.
  destruct (bb84_run R HR z _seed g Hz Hs)
    as (L & g' & g4 & Erun & _ & _ & Ba & Bb & Bc).
  destruct (bb84_anatomy R _ _ _ _ _ Erun)
    as (z0 & rows & Hz0 & _ & La & Lb & Lc & Lp & Li & Lr & Hend & Hrows).
  inversion Hz0; subst z0.
  destruct (fold_push_fields rows loop_init) as (F1 & F2 & F3 & F4 & F5).
  simpl in F1, F2, F3, F4, F5. rewrite <- Hend in F1, F2, F3, F4, F5.
  exists L, g', rows.
  split; [exact Erun |].
  split; [repeat split; assumption |].
  split; [repeat split; assumption |].
  split; [repeat split; assumption |].
  intros i r Hr.
  assert (Hi : (i < length (zip4 (alice_bits L) (alice_bases L) (bob_bases L)
                                 (alice_polarizations L)))%nat).
  { rewrite Li, <- Lr. apply nth_error_Some. rewrite Hr. discriminate. }
  apply nth_error_Some in Hi.
  destruct (nth_error (zip4 _ _ _ _) i) as [[[[bit ab] bb] pol] |] eqn:Eit;
    [| congruence].
  destruct (zip4_nth _ _ _ _ _ _ _ _ _ Eit) as (N1 & N2 & N3 & N4).
  exists bit, ab, bb, pol. repeat split; try assumption.
  apply (Hrows i _ r Eit Hr).
Qed.

Lemma rows_bob_bits L g0 rows :
  Forall is_bit (alice_bits L) -> rows_follow R L g0 rows ->
  Forall (fun r => is_bit (it_bob r)) rows.
Proof.
  intros Ba Hrows. apply Forall_forall. intros r Hin.
  apply In_nth_error in Hin. destruct Hin as (i & Hi).
  destruct (Hrows i r Hi) as (bit & ab & bb & pol & N1 & _ & _ & _ & _ & Hspec).
  eapply (iteration_bob_bit R HR (bit, ab, bb, pol)); [| exact Hspec].
  simpl. apply (forall_nth is_bit _ _ _ Ba N1).
Qed.

End Rows.

(** ** Thresholds *)

Lemma np_gt_spec q c : np_gt (Fin q) c = true <-> (c < q)%Q.
Proof.
  simpl. rewrite negb_true_iff. split.
  - intros H. apply Qnot_le_lt. intros Hle.
    apply Qle_bool_iff in Hle. congruence.
  - intros H. destruct (Qle_bool q c) eqn:E; [| reflexivity].
    apply Qle_bool_iff in E. exfalso. apply (Qlt_not_le _ _ H E).
Qed.

Lemma np_lt_spec q c : np_lt (Fin q) c = true <-> (q < c)%Q.
Proof.
  simpl. rewrite negb_true_iff. split.
  - intros H. apply Qnot_le_lt. intros Hle.
    apply Qle_bool_iff in Hle. congruence.
  - intros H. destruct (Qle_bool c q) eqn:E; [| reflexivity].
    apply Qle_bool_iff in E. exfalso. apply (Qlt_not_le _ _ H E).
Qed.

(** ** E91 *)

(** The run of [e91_protocol] on a positive size. *)
Lemma e91_run (R : RandomState) (z : Z) (_seed : option Z) (g : mt_state R) :
  0 < z -> seed_ok _seed ->
  exists L g0 g1 g',
    e91_simulate R (PyInt z) _seed g = (Returned L, g') /\
    seed_if_given R _seed g = (Returned tt, g0) /\
    randint2_draws R (Z.to_nat z) g0 = (Returned (e91_alice_bases L), g1) /\
    randint2_draws R (Z.to_nat z) g1 = (Returned (e91_bob_bases L), g') /\
    length (e91_alice_bases L) = Z.to_nat z /\
    length (e91_bob_bases L) = Z.to_nat z /\
    correlation_rate L
    = Fin (Z.of_nat (count_agreeing (e91_alice_bases L) (e91_bob_bases L))
           # Pos.of_nat (Z.to_nat z)).
Proof.
  intros Hz Hs.
  destruct (seed_if_given_ok R _seed g Hs) as (g0 & E0).
  destruct (randint2_draws_returns R (Z.to_nat z) g0) as (a & g1 & E1 & La).
  destruct (randint2_draws_returns R (Z.to_nat z) g1) as (b & g2 & E2 & Lb).
  exists {| e91_alice_bases := a; e91_bob_bases := b;
            correlated_bits := array_eq a b;
            correlation_rate := np_mean (array_eq a b) |}, g0, g1, g2.
  simpl e91_alice_bases. simpl e91_bob_bases. simpl correlation_rate.
  split; [| repeat split; try assumption].
  - unfold e91_simulate.
    rewrite (bind_step _ _ _ _ _ E0).
    rewrite !randint2_size_nonneg by lia.
    rewrite (bind_step _ _ _ _ _ E1), (bind_step _ _ _ _ _ E2).
    reflexivity.
  - assert (Hlen : length (array_eq a b) = Z.to_nat z)
      by (rewrite array_eq_length; congruence).
    rewrite np_mean_ratio.
    + rewrite array_eq_sum, Hlen. reflexivity.
    + apply nonempty_length. rewrite Hlen. lia.
Qed.

Lemma e91_protocol_of_simulate (R : RandomState) n _seed g L g' :
  e91_simulate R n _seed g = (Returned L, g') ->
  e91_protocol R n _seed g = (Returned (e91_result L), g').
Proof.
  intros H. unfold e91_protocol. rewrite (bind_step _ _ _ _ _ H). reflexivity.
Qed.

(** C9: for a positive [n_qubits] and an accepted seed, [e91_protocol] draws
    Alice's bases and then Bob's bases, [n_qubits] values each, and returns
    as correlation rate the number of agreeing positions divided by
    [n_qubits], with [eavesdropped] set exactly when the rate is below 0.7. *)
Theorem e91_correlation_rate (R : RandomState) (z : Z) (_seed : option Z)
        (g : mt_state R) :
  0 < z -> seed_ok _seed ->
  exists L g0 g1 g',
    e91_protocol R (PyInt z) _seed g = (Returned (e91_result L), g') /\
    seed_if_given R _seed g = (Returned tt, g0) /\
    randint2_draws R (Z.to_nat z) g0 = (Returned (e91_alice_bases L), g1) /\
    randint2_draws R (Z.to_nat z) g1 = (Returned (e91_bob_bases L), g') /\
    length (e91_alice_bases L) = Z.to_nat z /\
    length (e91_bob_bases L) = Z.to_nat z /\
    correlation_rate L
    = Fin (Z.of_nat (count_agreeing (e91_alice_bases L) (e91_bob_bases L))
           # Pos.of_nat (Z.to_nat z)) /\
    dict_get "correlation_rate" (e91_result L)
    = Some (PyFloat64 (correlation_rate L)) /\
    dict_get "eavesdropped" (e91_result L)
    = Some (PyBool (np_lt (correlation_rate L) (7 # 10))).
Proof.
  intros Hz Hs.
  destruct (e91_run R z _seed g Hz Hs)
    as (L & g0 & g1 & g' & Esim & E0 & E1 & E2 & La & Lb & Hrate).
  exists L, g0, g1, g'.
  split; [apply e91_protocol_of_simulate; exact Esim |].
  repeat split; assumption.
Qed.

Lemma e91_correlation_rate_witness :
  exists L g0 g1 g',
    e91_protocol lcg (PyInt 5) (Some 7) 0 = (Returned (e91_result L), g') /\
    seed_if_given lcg (Some 7) 0 = (Returned tt, g0) /\
    randint2_draws lcg (Z.to_nat 5) g0 = (Returned (e91_alice_bases L), g1) /\
    randint2_draws lcg (Z.to_nat 5) g1 = (Returned (e91_bob_bases L), g') /\
    length (e91_alice_bases L) = Z.to_nat 5 /\
    length (e91_bob_bases L) = Z.to_nat 5 /\
    correlation_rate L
    = Fin (Z.of_nat (count_agreeing (e91_alice_bases L) (e91_bob_bases L))
           # Pos.of_nat (Z.to_nat 5)) /\
    dict_get "correlation_rate" (e91_result L)
    = Some (PyFloat64 (correlation_rate L)) /\
    dict_get "eavesdropped" (e91_result L)
    = Some (PyBool (np_lt (correlation_rate L) (7 # 10))).
Proof.
  apply (e91_correlation_rate lcg 5 (Some 7) 0).
  - lia.
  - simpl. lia.
Defined.

(** The run of scenario 3, on the concrete generator. *)
Example e91_five_qubits :
  fst (e91_protocol lcg (PyInt 5) (Some 7) 0)
  = Returned [ ("alice_bases", PyIntList [0; 0; 0; 0; 0]);
               ("bob_bases", PyIntList [1; 1; 0; 0; 1]);
               ("correlation_rate", PyFloat64 (Fin (2 # 5)));
               ("eavesdropped", PyBool true) ]%string.
Proof. vm_compute. reflexivity. Qed.

(** ** BB84: the error estimate *)

Section ErrorEstimate.

Variable R : RandomState.
Hypothesis HR : RandomStateLaws R.

(** The subset and the error rate of a run. *)
Lemma error_rate_facts (z : Z) (_seed : option Z) (g : mt_state R) :
  0 <= z -> seed_ok _seed ->
  exists L g',
    bb84_simulate R (PyInt z) _seed g = (Returned L, g') /\
    let items := zip4 (alice_bits L) (alice_bases L) (bob_bases L)
                      (alice_polarizations L) in
    let g_loop := snd (bb84_prepare R (PyInt z) _seed g) in
    let g_est := snd (for_each R items loop_init g_loop) in
    let sub := comparison_subset L in
    let xs := at_indices (alice_bits L) sub in
    let ys := at_indices (bob_results (loop_end L)) sub in
    sub = fst (sample_indices R (Z.to_nat z) (Z.to_nat (z / 2)) g_est) /\
    NoDup sub /\
    length sub = Z.to_nat (z / 2) /\
    Forall (fun i => (i < Z.to_nat z)%nat) sub /\
    error_rate L = np_mean (array_ne xs ys) /\
    (2 <= z ->
     error_rate L
     = Fin (Z.of_nat (count_differing xs ys) # Pos.of_nat (length sub))).
Proof.
  intros Hz Hs.
  destruct (bb84_run_rows R HR z _seed g Hz Hs)
    as (L & g' & rows & Erun & (La & _ & _ & _ & Lr) & (F1 & _) & _).
  exists L, g'.
  split; [exact Erun |].
  destruct (bb84_simulate_inv R _ _ _ _ _ Erun) as (g3 & g4 & Ep & El & Ee).
  cbv zeta. rewrite Ep. cbn [snd]. rewrite El. cbn [snd].
  assert (Hb : length (bob_results (loop_end L)) = Z.to_nat z)
    by (rewrite F1, length_map; exact Lr).
  rewrite (bb84_estimate_returns R HR z _ _ g4 Hz La Hb) in Ee.
  injection Ee as Hsub Herr Hg.
  rewrite Hsub in Herr. symmetry in Hsub, Herr.
  pose proof (half_le z Hz) as Hle.
  assert (Hlen : length (comparison_subset L) = Z.to_nat (z / 2))
    by (rewrite Hsub; apply (sample_length R HR); exact Hle).
  repeat split.
  - exact Hsub.
  - rewrite Hsub. apply (sample_distinct R HR). exact Hle.
  - exact Hlen.
  - rewrite Hsub. apply (sample_range R HR). exact Hle.
  - exact Herr.
  - intros H2. rewrite Herr.
    assert (Hn : length (array_ne
                           (at_indices (alice_bits L) (comparison_subset L))
                           (at_indices (bob_results (loop_end L))
                                       (comparison_subset L)))
                 = length (comparison_subset L)).
    { rewrite array_ne_length; rewrite !at_indices_length; reflexivity. }
    rewrite np_mean_ratio.
    + rewrite array_ne_sum, Hn. reflexivity.
    + apply nonempty_length. rewrite Hn, Hlen.
      assert (0 < z / 2) by (apply Z.div_str_pos; lia). lia.
Qed.


(** C1, as amended: when [n_qubits // 2] is 0 (that is for [n_qubits] 1,
    and 0) and the seed is accepted, the call returns, the comparison subset
    is empty, [error_rate] is NaN, the mean of an empty array, and not 0.0,
    and [eavesdropping_detected] is [False]. *)
Theorem degenerate_sample_gives_nan (z : Z) (_seed : option Z) (g : mt_state R) :
  0 <= z -> z / 2 = 0 -> seed_ok _seed ->
  exists L g',
    bb84_protocol R (PyInt z) _seed g = (Returned (bb84_result L), g') /\
    comparison_subset L = [] /\
    dict_get "error_rate" (bb84_result L) = Some (PyFloat64 NaN) /\
    np_eq NaN 0 = false /\
    dict_get "eavesdropping_detected" (bb84_result L) = Some (PyBool false).
Proof.
  intros Hz Hhalf Hs.
  destruct (bb84_run R HR z _seed g Hz Hs)
    as (L & g' & g4 & Erun & Hsub & Herr & _).
  exists L, g'.
  split; [apply bb84_protocol_of_simulate; exact Erun |].
  assert (Hnil : comparison_subset L = []).
  { apply length_zero_iff_nil. rewrite Hsub, (sample_length R HR).
    - rewrite Hhalf. reflexivity.
    - apply half_le. exact Hz. }
  rewrite Hnil in Herr. simpl in Herr.
  repeat split.
  - exact Hnil.
  - simpl. rewrite Herr. reflexivity.
  - simpl. rewrite Herr. reflexivity.
Qed.

End ErrorEstimate.


Lemma degenerate_sample_gives_nan_witness :
  exists L g',
    bb84_protocol lcg (PyInt 1) (Some 0) 0 = (Returned (bb84_result L), g') /\
    comparison_subset L = [] /\
    dict_get "error_rate" (bb84_result L) = Some (PyFloat64 NaN) /\
    np_eq NaN 0 = false /\
    dict_get "eavesdropping_detected" (bb84_result L) = Some (PyBool false).
Proof.
  apply (degenerate_sample_gives_nan lcg lcg_laws 1 (Some 0) 0).
  - lia.
  - reflexivity.
  - simpl. lia.
Defined.

(** C1, as stated, fails at [n_qubits = 1], [seed = 0]: the call returns, but
    the returned [error_rate] is NaN, and NaN is not equal to 0.0. *)
Lemma one_qubit_error_rate_is_nan :
  exists d,
    fst (bb84_protocol lcg (PyInt 1) (Some 0) 0) = Returned d /\
    dict_get "error_rate" d = Some (PyFloat64 NaN) /\
    np_eq NaN 0 = false.
Proof.
  eexists. split; [vm_compute; reflexivity | split; reflexivity].
Qed.

(** The subset is drawn over all indices: in this run index 1 is compared
    although the bases at index 1 did not match. *)
Example subset_not_restricted_to_matched :
  exists L g',
    bb84_simulate lcg (PyInt 6) (Some 42) 0 = (Returned L, g') /\
    In 1%nat (comparison_subset L) /\
    nth_error (matched_bases (loop_end L)) 1 = Some false.
Proof.
  eexists. eexists. split; [vm_compute; reflexivity |].
  split; [simpl; tauto | reflexivity].
Qed.

(** ** BB84: sifting, matched bases, ranges and the returned fields *)

Lemma basis_name_eqb a b :
  is_bit a -> is_bit b -> String.eqb (basis_name a) (basis_name b) = (a =? b).
Proof. intros [-> | ->] [-> | ->]; reflexivity. Qed.

Lemma nth_error_map_some {A B : Type} (f : A -> B) (l : list A) i y :
  nth_error (map f l) i = Some y -> exists x, nth_error l i = Some x /\ y = f x.
Proof.
  rewrite nth_error_map. destruct (nth_error l i) as [x |]; simpl; intros H.
  - inversion H. eauto.
  - discriminate.
Qed.

Lemma nth_error_in_range {A : Type} (l : list A) i :
  (i < length l)%nat -> exists x, nth_error l i = Some x.
Proof.
  intros H. apply nth_error_Some in H.
  destruct (nth_error l i) as [x |]; [eauto | congruence].
Qed.

Lemma eve_at_row (R : RandomState) L g0 rows i r :
  rows_follow R L g0 rows -> nth_error rows i = Some r ->
  eve_at R (zip4 (alice_bits L) (alice_bases L) (bob_bases L)
                 (alice_polarizations L)) g0 i = it_eve r.
Proof.
  intros Hrows Hr.
  destruct (Hrows i r Hr) as (bit & ab & bb & pol & _ & _ & _ & _ & Eit & Hspec).
  unfold eve_at. rewrite Eit.
  destruct Hspec as (g1 & E & _). rewrite E. reflexivity.
Qed.

Section Results.

Variable R : RandomState.
Hypothesis HR : RandomStateLaws R.


(** C7: at every index the matched flag says whether the returned basis
    names of Alice and Bob are equal; where it is true Bob's polarization
    is Alice's, where it is false Bob's polarization is the marker ["?"]. *)
Theorem matched_bases_and_polarizations (z : Z) (_seed : option Z)
        (g : mt_state R) :
  0 <= z -> seed_ok _seed ->
  exists L g',
    bb84_protocol R (PyInt z) _seed g = (Returned (bb84_result L), g') /\
    forall i,
      (i < Z.to_nat z)%nat ->
      exists a b m p q,
        nth_error (map basis_name (alice_bases L)) i = Some a /\
        nth_error (map basis_name (bob_bases L)) i = Some b /\
        nth_error (matched_bases (loop_end L)) i = Some m /\
        nth_error (alice_polarizations L) i = Some p /\
        nth_error (bob_polarizations (loop_end L)) i = Some q /\
        m = String.eqb a b /\
        (m = true -> q = p) /\
        (m = false -> q = "?"%string).
Proof.
  intros Hz Hs.
  destruct (bb84_run_rows R HR z _seed g Hz Hs)
    as (L & g' & rows & Erun & (La & Lb & Lc & Lp & Lr)
        & (F1 & F2 & F3 & F4 & F5) & (Ba & Bb & Bc) & Hrows).
  exists L, g'.
  split; [apply bb84_protocol_of_simulate; exact Erun |].
  intros i Hi. rewrite <- Lr in Hi.
  destruct (nth_error_in_range rows i Hi) as (r & Hr).
  destruct (Hrows i r Hr)
    as (bit & ab & bb & pol & N1 & N2 & N3 & N4 & _ & (g1 & _ & Hm & Ht & Hf)).
  exists (basis_name ab), (basis_name bb), (it_matched r), pol, (it_pol r).
  rewrite F2, F4, !nth_error_map, N2, N3, Hr, N4. simpl.
  repeat split.
  - rewrite Hm. symmetry. apply basis_name_eqb.
    + apply (forall_nth is_bit _ _ _ Bb N2).
    + apply (forall_nth is_bit _ _ _ Bc N3).
  - intros H. apply Ht in H. tauto.
  - intros H. apply Hf in H. tauto.
Qed.

(** C3, as amended: for a positive [n_qubits] and an accepted seed every
    bit of [alice_bits], [bob_bits] and [shared_key] is 0 or 1 and the
    correlation rate of E91 lies in [0,1]; the error rate of BB84 lies in
    [0,1] when [n_qubits >= 2]. *)
Theorem bits_and_rates_in_range (z : Z) (_seed : option Z) (g : mt_state R) :
  0 < z -> seed_ok _seed ->
  exists L g' E h',
    bb84_protocol R (PyInt z) _seed g = (Returned (bb84_result L), g') /\
    e91_protocol R (PyInt z) _seed g = (Returned (e91_result E), h') /\
    Forall is_bit (alice_bits L) /\
    Forall is_bit (bob_results (loop_end L)) /\
    Forall is_bit (shared_key (loop_end L)) /\
    (2 <= z -> in_unit_interval (error_rate L)) /\
    in_unit_interval (correlation_rate E).
Proof.
  intros Hz Hs.
  assert (Hz0 : 0 <= z) by lia.
  destruct (bb84_run_rows R HR z _seed g Hz0 Hs)
    as (L & g' & rows & Erun & (La & Lb & Lc & Lp & Lr)
        & (F1 & F2 & F3 & F4 & F5) & (Ba & Bb & Bc) & Hrows).
  destruct (error_rate_facts R HR z _seed g Hz0 Hs)
    as (L' & g'' & Erun' & Hest).
  rewrite Erun in Erun'. inversion Erun'; subst L' g''. clear Erun'.
  cbv zeta in Hest.
  destruct Hest as (_ & _ & Hlen & _ & _ & Hratio).
  destruct (e91_run R z _seed g Hz Hs)
    as (E & h0 & h1 & h' & Ee & _ & _ & _ & Ea & _ & Hrate).
  pose proof (rows_bob_bits R HR L _ rows Ba Hrows) as Hbob.
  exists L, g', E, h'.
  split; [apply bb84_protocol_of_simulate; exact Erun |].
  split; [apply e91_protocol_of_simulate; exact Ee |].
  split; [exact Ba |].
  split; [| split; [| split]].
  - rewrite F1. apply Forall_map. exact Hbob.
  - rewrite F5. apply Forall_map. apply Forall_forall. intros r Hin.
    apply filter_In in Hin. rewrite Forall_forall in Hbob. apply Hbob. tauto.
  - intros H2. rewrite (Hratio H2). apply ratio_in_unit.
    + rewrite Hlen. assert (0 < z / 2) by (apply Z.div_str_pos; lia). lia.
    + rewrite <- (at_indices_length (alice_bits L) (comparison_subset L)).
      apply count_differing_le.
  - rewrite Hrate. apply ratio_in_unit.
    + lia.
    + rewrite <- Ea. apply count_agreeing_le.
Qed.

(** C10: the loop records one Eve flag per qubit, but the returned dict has
    exactly the ten documented keys, and [eve_interventions] is not one of
    them. *)
Theorem eve_flags_not_returned (z : Z) (_seed : option Z) (g : mt_state R) :
  0 <= z -> seed_ok _seed ->
  exists L g' d,
    bb84_simulate R (PyInt z) _seed g = (Returned L, g') /\
    bb84_protocol R (PyInt z) _seed g = (Returned d, g') /\
    d = bb84_result L /\
    length (eve_interventions (loop_end L)) = Z.to_nat z /\
    dict_keys d = bb84_fields /\
    length (dict_keys d) = 10%nat /\
    NoDup (dict_keys d) /\
    dict_get "eve_interventions" d = None.
Proof.
  intros Hz Hs.
  destruct (bb84_run_rows R HR z _seed g Hz Hs)
    as (L & g' & rows & Erun & (La & Lb & Lc & Lp & Lr)
        & (F1 & F2 & F3 & F4 & F5) & _ & _).
  exists L, g', (bb84_result L).
  split; [exact Erun |].
  split; [apply bb84_protocol_of_simulate; exact Erun |].
  split; [reflexivity |].
  split; [rewrite F3, length_map; exact Lr |].
  split; [reflexivity |].
  split; [reflexivity |].
  split; [| reflexivity].
  unfold bb84_result, dict_keys. simpl.
  repeat (constructor; [simpl; intuition discriminate |]). constructor.
Qed.

End Results.


Lemma matched_bases_and_polarizations_witness :
  exists L g',
    bb84_protocol lcg (PyInt 6) (Some 42) 0 = (Returned (bb84_result L), g') /\
    forall i,
      (i < Z.to_nat 6)%nat ->
      exists a b m p q,
        nth_error (map basis_name (alice_bases L)) i = Some a /\
        nth_error (map basis_name (bob_bases L)) i = Some b /\
        nth_error (matched_bases (loop_end L)) i = Some m /\
        nth_error (alice_polarizations L) i = Some p /\
        nth_error (bob_polarizations (loop_end L)) i = Some q /\
        m = String.eqb a b /\
        (m = true -> q = p) /\
        (m = false -> q = "?"%string).
Proof.
  apply (matched_bases_and_polarizations lcg lcg_laws 6 (Some 42) 0).
  - lia.
  - simpl. lia.
Defined.

Lemma bits_and_rates_in_range_witness :
  exists L g' E h',
    bb84_protocol lcg (PyInt 6) (Some 42) 0 = (Returned (bb84_result L), g') /\
    e91_protocol lcg (PyInt 6) (Some 42) 0 = (Returned (e91_result E), h') /\
    Forall is_bit (alice_bits L) /\
    Forall is_bit (bob_results (loop_end L)) /\
    Forall is_bit (shared_key (loop_end L)) /\
    (2 <= 6 -> in_unit_interval (error_rate L)) /\
    in_unit_interval (correlation_rate E).
Proof.
  apply (bits_and_rates_in_range lcg lcg_laws 6 (Some 42) 0).
  - lia.
  - simpl. lia.
Defined.

Lemma eve_flags_not_returned_witness :
  exists L g' d,
    bb84_simulate lcg (PyInt 6) (Some 42) 0 = (Returned L, g') /\
    bb84_protocol lcg (PyInt 6) (Some 42) 0 = (Returned d, g') /\
    d = bb84_result L /\
    length (eve_interventions (loop_end L)) = Z.to_nat 6 /\
    dict_keys d = bb84_fields /\
    length (dict_keys d) = 10%nat /\
    NoDup (dict_keys d) /\
    dict_get "eve_interventions" d = None.
Proof.
  apply (eve_flags_not_returned lcg lcg_laws 6 (Some 42) 0).
  - lia.
  - simpl. lia.
Defined.

(** C3, as stated, fails at [n_qubits = 1], [seed = 0]: the returned
    [error_rate] is NaN, which is not a number of the interval [0,1]. *)
Lemma one_qubit_error_rate_outside_unit_interval :
  exists d x,
    fst (bb84_protocol lcg (PyInt 1) (Some 0) 0) = Returned d /\
    dict_get "error_rate" d = Some (PyFloat64 x) /\
    ~ in_unit_interval x.
Proof.
  eexists. exists NaN.
  split; [vm_compute; reflexivity | split; [reflexivity | simpl; tauto]].
Qed.

(** The run of six qubits under seed 42, on the concrete generator. *)
Example bb84_six_qubits :
  fst (bb84_protocol lcg (PyInt 6) (Some 42) 0)
  = Returned
      [ ("alice_bits", PyIntList [0; 1; 1; 1; 1; 0]);
        ("bob_bits", PyIntList [1; 0; 1; 1; 1; 1]);
        ("alice_bases", PyStrList ["X"; "X"; "+"; "X"; "X"; "+"]);
        ("bob_bases", PyStrList ["+"; "+"; "+"; "X"; "+"; "X"]);
        ("alice_polarizations",
         PyStrList [sym_up_right; sym_down_right; sym_right; sym_down_right;
                    sym_down_right; sym_up]);
        ("bob_polarizations",
         PyStrList ["?"; "?"; sym_right; sym_down_right; "?"; "?"]);
        ("matched_bases", PyBoolList [false; false; true; true; false; false]);
        ("shared_key", PyIntList [1; 1]);
        ("error_rate", PyFloat64 (Fin (1 # 3)));
        ("eavesdropping_detected", PyBool true) ]%string.
Proof. vm_compute. reflexivity. Qed.

(** * Further properties of the two protocols *)

(** ** Every returned result *)

Section Returned.

Variable R : RandomState.
Hypothesis HR : RandomStateLaws R.

(** A dict returned by [bb84_protocol] comes from a non-negative integer
    size and an accepted seed, and is built from a run of the loop. *)
Lemma bb84_returned_rows n _seed g d g' :
  bb84_protocol R n _seed g = (Returned d, g') ->
  exists z L rows,
    n = PyInt z /\ 0 <= z /\ seed_ok _seed /\ d = bb84_result L /\
    bb84_simulate R (PyInt z) _seed g = (Returned L, g') /\
    (length (alice_bits L) = Z.to_nat z /\
     length (alice_bases L) = Z.to_nat z /\
     length (bob_bases L) = Z.to_nat z /\
     length (alice_polarizations L) = Z.to_nat z /\
     length rows = Z.to_nat z) /\
    (bob_results (loop_end L) = map it_bob rows /\
     bob_polarizations (loop_end L) = map it_pol rows /\
     eve_interventions (loop_end L)
     = map (fun r => is_not_None (it_eve r)) rows /\
     matched_bases (loop_end L) = map it_matched rows /\
     shared_key (loop_end L) = map it_bob (filter it_matched rows)) /\
    (Forall is_bit (alice_bits L) /\ Forall is_bit (alice_bases L) /\
     Forall is_bit (bob_bases L)) /\
    rows_follow R L (snd (bb84_prepare R (PyInt z) _seed g)) rows.
Proof.
  intros H.
  destruct (bb84_result_domain R _ _ _ _ _ H) as (z & -> & Hz & Hs).
  destruct (bb84_run_rows R HR z _seed g Hz Hs)
    as (L & g'' & rows & Erun & Hlen & Hfields & Hbits & Hrows).
  pose proof (bb84_protocol_of_simulate R _ _ _ _ _ Erun) as Ep.
  rewrite H in Ep. injection Ep as Hd Hg. subst d g''.
  exists z, L, rows. repeat split; try tauto; assumption.
Qed.

(** The same, of the locals of a run that returned. *)
Lemma bb84_simulated_rows n _seed g L g' :
  bb84_simulate R n _seed g = (Returned L, g') ->
  exists z rows,
    n = PyInt z /\ 0 <= z /\ seed_ok _seed /\
    (length (alice_bits L) = Z.to_nat z /\
     length (alice_bases L) = Z.to_nat z /\
     length (bob_bases L) = Z.to_nat z /\
     length (alice_polarizations L) = Z.to_nat z /\
     length rows = Z.to_nat z) /\
    (bob_results (loop_end L) = map it_bob rows /\
     bob_polarizations (loop_end L) = map it_pol rows /\
     eve_interventions (loop_end L)
     = map (fun r => is_not_None (it_eve r)) rows /\
     matched_bases (loop_end L) = map it_matched rows /\
     shared_key (loop_end L) = map it_bob (filter it_matched rows)) /\
    (Forall is_bit (alice_bits L) /\ Forall is_bit (alice_bases L) /\
     Forall is_bit (bob_bases L)) /\
    rows_follow R L (snd (bb84_prepare R (PyInt z) _seed g)) rows.
Proof.
  intros H.
  pose proof (bb84_protocol_of_simulate R _ _ _ _ _ H) as Hp.
  destruct (bb84_result_domain R _ _ _ _ _ Hp) as (z & -> & Hz & Hs).
  destruct (bb84_run_rows R HR z _seed g Hz Hs)
    as (L' & g'' & rows & Erun & Hlen & Hfields & Hbits & Hrows).
  rewrite H in Erun. injection Erun as <- <-.
  exists z, rows. repeat split; try tauto; assumption.
Qed.

(** The subset and the error rate, of the locals of a run that returned. *)
Lemma bb84_simulated_estimate z _seed g L g' :
  bb84_simulate R (PyInt z) _seed g = (Returned L, g') ->
  0 <= z /\
  NoDup (comparison_subset L) /\
  length (comparison_subset L) = Z.to_nat (z / 2) /\
  Forall (fun i => (i < Z.to_nat z)%nat) (comparison_subset L) /\
  (2 <= z ->
   error_rate L
   = Fin (Z.of_nat (count_differing
                      (at_indices (alice_bits L) (comparison_subset L))
                      (at_indices (bob_results (loop_end L))
                                  (comparison_subset L)))
          # Pos.of_nat (length (comparison_subset L)))).
Proof.
  intros H.
  pose proof (bb84_protocol_of_simulate R _ _ _ _ _ H) as Hp.
  destruct (bb84_result_domain R _ _ _ _ _ Hp) as (z0 & Hz0 & Hz & Hs).
  inversion Hz0; subst z0.
  destruct (error_rate_facts R HR z _seed g Hz Hs)
    as (L' & g'' & Erun & Hest).
  rewrite H in Erun. injection Erun as <- <-.
  cbv zeta in Hest. tauto.
Qed.

End Returned.

(** ** Lengths *)

(** X1: in every dict [bb84_protocol] returns, each of the seven per-index
    sequences has exactly [n_qubits] entries. *)
Theorem bb84_sequences_have_length_n (R : RandomState) (HR : RandomStateLaws R)
        (n : pynum) (_seed : option Z) (g : mt_state R) (d : dict)
        (g' : mt_state R) :
  bb84_protocol R n _seed g = (Returned d, g') ->
  exists z a b x y p q m,
    n = PyInt z /\
    dict_get "alice_bits" d = Some (PyIntList a) /\
    dict_get "bob_bits" d = Some (PyIntList b) /\
    dict_get "alice_bases" d = Some (PyStrList x) /\
    dict_get "bob_bases" d = Some (PyStrList y) /\
    dict_get "alice_polarizations" d = Some (PyStrList p) /\
    dict_get "bob_polarizations" d = Some (PyStrList q) /\
    dict_get "matched_bases" d = Some (PyBoolList m) /\
    Z.of_nat (length a) = z /\ Z.of_nat (length b) = z /\
    Z.of_nat (length x) = z /\ Z.of_nat (length y) = z /\
    Z.of_nat (length p) = z /\ Z.of_nat (length q) = z /\
    Z.of_nat (length m) = z.
Proof.
  intros H.
  destruct (bb84_returned_rows R HR _ _ _ _ _ H)
    as (z & L & rows & -> & Hz & _ & -> & _ & (La & Lb & Lc & Lp & Lr)
        & (F1 & F2 & _ & F4 & _) & _).
  exists z. do 7 eexists.
  split; [reflexivity |].
  do 7 (split; [reflexivity |]).
  rewrite F1, F2, F4, !length_map, La, Lb, Lc, Lp, Lr.
  repeat split; apply Z2Nat.id; exact Hz.
Qed.

Lemma bb84_sequences_have_length_n_witness :
  exists z a b x y p q m,
    PyInt 6 = PyInt z /\
    dict_get "alice_bits" six_qubits_seed_42 = Some (PyIntList a) /\
    dict_get "bob_bits" six_qubits_seed_42 = Some (PyIntList b) /\
    dict_get "alice_bases" six_qubits_seed_42 = Some (PyStrList x) /\
    dict_get "bob_bases" six_qubits_seed_42 = Some (PyStrList y) /\
    dict_get "alice_polarizations" six_qubits_seed_42 = Some (PyStrList p) /\
    dict_get "bob_polarizations" six_qubits_seed_42 = Some (PyStrList q) /\
    dict_get "matched_bases" six_qubits_seed_42 = Some (PyBoolList m) /\
    Z.of_nat (length a) = z /\ Z.of_nat (length b) = z /\
    Z.of_nat (length x) = z /\ Z.of_nat (length y) = z /\
    Z.of_nat (length p) = z /\ Z.of_nat (length q) = z /\
    Z.of_nat (length m) = z.
Proof.
  apply (bb84_sequences_have_length_n lcg lcg_laws (PyInt 6) (Some 42) 0
           six_qubits_seed_42 1939145516).
  vm_compute. reflexivity.
Defined.

(** ** Polarizations read backwards *)

Lemma symbol_key_of_lookup k s :
  lookup_symbol k polarization_symbols = Some s ->
  symbol_key s polarization_symbols = Some k.
Proof.
  intros H. apply lookup_symbol_domain in H.
  destruct H as [[-> ->] | [[-> ->] | [[-> ->] | [-> ->]]]]; reflexivity.
Qed.

Lemma forall2_combine_nth {A B C : Type} (P : A * B -> C -> Prop)
      (a : list A) : forall (b : list B) (c : list C) i x y,
  Forall2 P (combine a b) c ->
  nth_error a i = Some x -> nth_error b i = Some y ->
  exists w, nth_error c i = Some w /\ P (x, y) w.
Proof.
  induction a as [| x0 a IH]; intros b c i x y HF Ha Hb.
  - destruct i; discriminate.
  - destruct b as [| y0 b]; [destruct i; discriminate |].
    simpl in HF. inversion HF as [| ? w ? c' Hp HF']. subst.
    destruct i as [| i]; simpl in *.
    + inversion Ha. inversion Hb. subst. eauto.
    + eauto.
Qed.

Section Encoding.

Variable R : RandomState.
Hypothesis HR : RandomStateLaws R.

(** X2: at every index Alice's polarization is the symbol stored under her
    (bit, basis) pair, and looking that symbol up backwards in
    [polarization_symbols] gives the pair again; at a matched index Bob's
    polarization is this same symbol, while his marker ["?"] stands for no
    pair. *)
Theorem polarization_reveals_bit_and_basis (z : Z) (_seed : option Z)
        (g : mt_state R) :
  0 <= z -> seed_ok _seed ->
  exists L g',
    bb84_protocol R (PyInt z) _seed g = (Returned (bb84_result L), g') /\
    symbol_key "?" polarization_symbols = None /\
    forall i bit basis,
      nth_error (alice_bits L) i = Some bit ->
      nth_error (alice_bases L) i = Some basis ->
      exists p,
        nth_error (alice_polarizations L) i = Some p /\
        lookup_symbol (bit, basis) polarization_symbols = Some p /\
        symbol_key p polarization_symbols = Some (bit, basis) /\
        (nth_error (matched_bases (loop_end L)) i = Some true ->
         nth_error (bob_polarizations (loop_end L)) i = Some p).
Proof.
  intros Hz Hs.
  destruct (bb84_run_rows R HR z _seed g Hz Hs)
    as (L & g' & rows & Erun & _ & (_ & F2 & _ & F4 & _) & _ & Hrows).
  exists L, g'.
  split; [apply bb84_protocol_of_simulate; exact Erun |].
  split; [reflexivity |].
  destruct (bb84_simulate_inv R _ _ _ _ _ Erun) as (g3 & g4 & Ep & _).
  apply bb84_prepare_inv in Ep.
  destruct Ep as (z0 & h0 & h1 & h2 & _ & _ & _ & _ & _ & _ & HF).
  intros i bit basis Hbit Hbasis.
  destruct (forall2_combine_nth _ _ _ _ i bit basis HF Hbit Hbasis)
    as (p & Hp & Hlook).
  exists p. repeat split; try assumption.
  - apply symbol_key_of_lookup. exact Hlook.
  - rewrite F4, F2. intros Hm.
    apply nth_error_map_some in Hm. destruct Hm as (r & Hr & Hmr).
    destruct (Hrows i r Hr)
      as (bit' & ab & bb & pol & _ & _ & _ & N4 & _ & (g1 & _ & _ & Ht & _)).
    rewrite Hp in N4. inversion N4; subst pol.
    rewrite nth_error_map, Hr. simpl.
    destruct (Ht (eq_sym Hmr)) as [-> _]. reflexivity.
Qed.

(** X3: in the locals of every run that returned, at a matched index where
    the flag recorded in [eve_interventions] is false Bob holds Alice's bit;
    where Bob's bit differs from Alice's, the flag is true and the bit is
    the one Eve's model returned in that iteration. *)
Theorem matched_mismatch_needs_eve (n : pynum) (_seed : option Z)
        (g : mt_state R) (L : bb84_locals) (g' : mt_state R) :
  bb84_simulate R n _seed g = (Returned L, g') ->
  bb84_protocol R n _seed g = (Returned (bb84_result L), g') /\
  let items := zip4 (alice_bits L) (alice_bases L) (bob_bases L)
                    (alice_polarizations L) in
  let g0 := snd (bb84_prepare R n _seed g) in
  forall i a b,
    nth_error (matched_bases (loop_end L)) i = Some true ->
    nth_error (alice_bits L) i = Some a ->
    nth_error (bob_results (loop_end L)) i = Some b ->
    nth_error (eve_interventions (loop_end L)) i
    = Some (is_not_None (eve_at R items g0 i)) /\
    (nth_error (eve_interventions (loop_end L)) i = Some false -> b = a) /\
    (b <> a ->
     nth_error (eve_interventions (loop_end L)) i = Some true /\
     eve_at R items g0 i = Some b).
Proof.
  intros H.
  split; [apply bb84_protocol_of_simulate; exact H |].
  destruct (bb84_simulated_rows R HR _ _ _ _ _ H)
    as (z & rows & -> & _ & _ & _ & (F1 & _ & F3 & F4 & _) & _ & Hrows).
  cbv zeta. intros i a b Hm Ha Hb.
  rewrite F4 in Hm. apply nth_error_map_some in Hm.
  destruct Hm as (r & Hr & Hmr).
  rewrite (eve_at_row R L _ rows i r Hrows Hr).
  destruct (Hrows i r Hr)
    as (bit & ab & bb & pol & N1 & _ & _ & _ & _ & (g1 & _ & _ & Ht & _)).
  destruct (Ht (eq_sym Hmr)) as [_ Hbob].
  rewrite Ha in N1. inversion N1; subst bit.
  rewrite F1, nth_error_map, Hr in Hb. simpl in Hb. inversion Hb; subst b.
  rewrite F3, nth_error_map, Hr. simpl.
  split; [reflexivity |].
  destruct (it_eve r) as [e |]; simpl in *.
  - split; [discriminate |]. intros _. split; [reflexivity | congruence].
  - split; [intros _; exact Hbob | intros Hne; congruence].
Qed.

End Encoding.

Lemma polarization_reveals_bit_and_basis_witness :
  exists L g',
    bb84_protocol lcg (PyInt 6) (Some 42) 0 = (Returned (bb84_result L), g') /\
    symbol_key "?" polarization_symbols = None /\
    forall i bit basis,
      nth_error (alice_bits L) i = Some bit ->
      nth_error (alice_bases L) i = Some basis ->
      exists p,
        nth_error (alice_polarizations L) i = Some p /\
        lookup_symbol (bit, basis) polarization_symbols = Some p /\
        symbol_key p polarization_symbols = Some (bit, basis) /\
        (nth_error (matched_bases (loop_end L)) i = Some true ->
         nth_error (bob_polarizations (loop_end L)) i = Some p).
Proof.
  apply (polarization_reveals_bit_and_basis lcg lcg_laws 6 (Some 42) 0).
  - lia.
  - simpl. lia.
Defined.

Lemma matched_mismatch_needs_eve_witness :
  bb84_protocol lcg (PyInt 6) (Some 42) 0
  = (Returned (bb84_result six_qubits_locals), 1939145516) /\
  let items := zip4 (alice_bits six_qubits_locals)
                    (alice_bases six_qubits_locals)
                    (bob_bases six_qubits_locals)
                    (alice_polarizations six_qubits_locals) in
  let g0 := snd (bb84_prepare lcg (PyInt 6) (Some 42) 0) in
  forall i a b,
    nth_error (matched_bases (loop_end six_qubits_locals)) i = Some true ->
    nth_error (alice_bits six_qubits_locals) i = Some a ->
    nth_error (bob_results (loop_end six_qubits_locals)) i = Some b ->
    nth_error (eve_interventions (loop_end six_qubits_locals)) i
    = Some (is_not_None (eve_at lcg items g0 i)) /\
    (nth_error (eve_interventions (loop_end six_qubits_locals)) i
     = Some false -> b = a) /\
    (b <> a ->
     nth_error (eve_interventions (loop_end six_qubits_locals)) i = Some true /\
     eve_at lcg items g0 i = Some b).
Proof.
  apply (matched_mismatch_needs_eve lcg lcg_laws (PyInt 6) (Some 42) 0
           six_qubits_locals 1939145516).
  vm_compute. reflexivity.
Defined.

(** ** The thresholds as counts *)

Lemma ratio_gt_15 (c k : nat) :
  (0 < k)%nat ->
  (np_gt (Fin (Z.of_nat c # Pos.of_nat k)) (15 # 100) = true
   <-> 15 * Z.of_nat k < 100 * Z.of_nat c).
Proof.
  intros Hk. rewrite np_gt_spec. unfold Qlt. simpl Qnum. simpl Qden.
  rewrite (pos_of_length k Hk). lia.
Qed.

Lemma ratio_lt_7 (c k : nat) :
  (0 < k)%nat ->
  (np_lt (Fin (Z.of_nat c # Pos.of_nat k)) (7 # 10) = true
   <-> 10 * Z.of_nat c < 7 * Z.of_nat k).
Proof.
  intros Hk. rewrite np_lt_spec. unfold Qlt. simpl Qnum. simpl Qden.
  rewrite (pos_of_length k Hk). lia.
Qed.

(** X4: in every run that returned with [n_qubits >= 2], the comparison
    subset has [n_qubits // 2] pairwise distinct indices below [n_qubits],
    and the returned [eavesdropping_detected] is true exactly when 100 times
    the number of compared positions at which the bits differ exceeds 15
    times [n_qubits // 2]; hence for [n_qubits <= 13] a single differing
    compared position already sets it. *)
Theorem detection_counts_mismatches (R : RandomState) (HR : RandomStateLaws R)
        (z : Z) (_seed : option Z) (g : mt_state R) (L : bb84_locals)
        (g' : mt_state R) :
  bb84_simulate R (PyInt z) _seed g = (Returned L, g') -> 2 <= z ->
  bb84_protocol R (PyInt z) _seed g = (Returned (bb84_result L), g') /\
  let sub := comparison_subset L in
  let c := Z.of_nat (count_differing
                       (at_indices (alice_bits L) sub)
                       (at_indices (bob_results (loop_end L)) sub)) in
  let flag := np_gt (error_rate L) (15 # 100) in
  NoDup sub /\
  Z.of_nat (length sub) = z / 2 /\
  Forall (fun i => (i < Z.to_nat z)%nat) sub /\
  dict_get "eavesdropping_detected" (bb84_result L) = Some (PyBool flag) /\
  (flag = true <-> 15 * (z / 2) < 100 * c) /\
  (z <= 13 -> (flag = true <-> 0 < c)).
Proof.
  intros H Hz.
  split; [apply bb84_protocol_of_simulate; exact H |].
  destruct (bb84_simulated_estimate R HR _ _ _ _ _ H)
    as (_ & Hnd & Hlen & Hrange & Hratio).
  assert (Hk : 0 < z / 2) by (apply Z.div_str_pos; lia).
  cbv zeta.
  split; [exact Hnd |].
  split; [rewrite Hlen; apply Z2Nat.id; lia |].
  split; [exact Hrange |].
  split; [reflexivity |].
  rewrite (Hratio Hz), Hlen.
  rewrite ratio_gt_15 by lia.
  rewrite Z2Nat.id by lia.
  split; [reflexivity |].
  intros H13.
  assert (z / 2 < 7) by (apply Z.div_lt_upper_bound; lia).
  lia.
Qed.

Lemma detection_counts_mismatches_witness :
  bb84_protocol lcg (PyInt 6) (Some 42) 0
  = (Returned (bb84_result six_qubits_locals), 1939145516) /\
  let sub := comparison_subset six_qubits_locals in
  let c := Z.of_nat (count_differing
                       (at_indices (alice_bits six_qubits_locals) sub)
                       (at_indices (bob_results (loop_end six_qubits_locals))
                                   sub)) in
  let flag := np_gt (error_rate six_qubits_locals) (15 # 100) in
  NoDup sub /\
  Z.of_nat (length sub) = 6 / 2 /\
  Forall (fun i => (i < Z.to_nat 6)%nat) sub /\
  dict_get "eavesdropping_detected" (bb84_result six_qubits_locals)
  = Some (PyBool flag) /\
  (flag = true <-> 15 * (6 / 2) < 100 * c) /\
  (6 <= 13 -> (flag = true <-> 0 < c)).
Proof.
  apply (detection_counts_mismatches lcg lcg_laws 6 (Some 42) 0
           six_qubits_locals 1939145516).
  - vm_compute. reflexivity.
  - lia.
Defined.

(** X5: for a positive [n_qubits], [eavesdropped] of E91 is true exactly
    when 10 times the number of agreeing positions is below 7 times
    [n_qubits]. *)
Theorem e91_flag_counts_agreements (R : RandomState) (z : Z) (_seed : option Z)
        (g : mt_state R) :
  0 < z -> seed_ok _seed ->
  exists L g' flag,
    e91_protocol R (PyInt z) _seed g = (Returned (e91_result L), g') /\
    dict_get "eavesdropped" (e91_result L) = Some (PyBool flag) /\
    (flag = true <->
     10 * Z.of_nat (count_agreeing (e91_alice_bases L) (e91_bob_bases L))
     < 7 * z).
Proof.
  intros Hz Hs.
  destruct (e91_run R z _seed g Hz Hs)
    as (L & g0 & g1 & g' & Esim & _ & _ & _ & _ & _ & Hrate).
  exists L, g', (np_lt (correlation_rate L) (7 # 10)).
  split; [apply e91_protocol_of_simulate; exact Esim |].
  split; [reflexivity |].
  rewrite Hrate, ratio_lt_7 by lia.
  rewrite Z2Nat.id by lia. reflexivity.
Qed.

Lemma e91_flag_counts_agreements_witness :
  exists L g' flag,
    e91_protocol lcg (PyInt 5) (Some 7) 0 = (Returned (e91_result L), g') /\
    dict_get "eavesdropped" (e91_result L) = Some (PyBool flag) /\
    (flag = true <->
     10 * Z.of_nat (count_agreeing (e91_alice_bases L) (e91_bob_bases L))
     < 7 * 5).
Proof.
  apply (e91_flag_counts_agreements lcg 5 (Some 7) 0).
  - lia.
  - simpl. lia.
Defined.

(** ** Edge cases of size and seed *)

Lemma e91_zero_qubits_run (R : RandomState) (_seed : option Z) (g : mt_state R) :
  seed_ok _seed ->
  e91_protocol R (PyInt 0) _seed g
  = (Returned [ ("alice_bases", PyIntList []);
                ("bob_bases", PyIntList []);
                ("correlation_rate", PyFloat64 NaN);
                ("eavesdropped", PyBool false) ]%string,
     snd (seed_if_given R _seed g)).
Proof.
  intros Hs. destruct (seed_if_given_ok R _seed g Hs) as (g0 & E0).
  rewrite E0. cbn [snd].
  apply (e91_protocol_of_simulate R (PyInt 0) _seed g
           {| e91_alice_bases := []; e91_bob_bases := [];
              correlated_bits := []; correlation_rate := NaN |} g0).
  unfold e91_simulate. rewrite (bind_step _ _ _ _ _ E0). reflexivity.
Qed.

(** X6: with [n_qubits = 0] and an accepted seed [e91_protocol] does not
    raise: it draws nothing, returns two empty sequences, the rate NaN and
    [eavesdropped = False]. *)
Theorem e91_zero_qubits (R : RandomState) (_seed : option Z) (g : mt_state R) :
  seed_ok _seed ->
  e91_protocol R (PyInt 0) _seed g
  = (Returned [ ("alice_bases", PyIntList []);
                ("bob_bases", PyIntList []);
                ("correlation_rate", PyFloat64 NaN);
                ("eavesdropped", PyBool false) ]%string,
     snd (seed_if_given R _seed g)).
Proof. apply e91_zero_qubits_run. Qed.

Lemma e91_zero_qubits_witness :
  e91_protocol lcg (PyInt 0) (Some 7) 0
  = (Returned [ ("alice_bases", PyIntList []);
                ("bob_bases", PyIntList []);
                ("correlation_rate", PyFloat64 NaN);
                ("eavesdropped", PyBool false) ]%string,
     snd (seed_if_given lcg (Some 7) 0)).
Proof.
  apply (e91_zero_qubits lcg (Some 7) 0). simpl. lia.
Defined.

Lemma seed_rejected (R : RandomState) (s : Z) (g : mt_state R) :
  ~ (0 <= s < 2 ^ 32) ->
  seed_if_given R (Some s) g = (Raised ValueError, g).
Proof.
  intros H. simpl. unfold np_random_seed.
  destruct ((0 <=? s) && (s <? 2 ^ 32)) eqn:E; [| reflexivity].
  apply andb_prop in E. destruct E as [E1 E2].
  apply Z.leb_le in E1. apply Z.ltb_lt in E2. lia.
Qed.

Lemma bad_seed_raises_and_keeps_generator_aux (R : RandomState) (n : pynum)
      (s : Z) (g : mt_state R) :
  ~ (0 <= s < 2 ^ 32) ->
  bb84_protocol R n (Some s) g = (Raised ValueError, g) /\
  e91_protocol R n (Some s) g = (Raised ValueError, g).
Proof.
  intros H. pose proof (seed_rejected R s g H) as E. split.
  - unfold bb84_protocol, bb84_simulate, bb84_prepare.
    do 3 (erewrite bind_raised; [reflexivity |]). exact E.
  - unfold e91_protocol, e91_simulate.
    do 2 (erewrite bind_raised; [reflexivity |]). exact E.
Qed.

(** X7: a seed outside [0, 2^32) makes both protocols raise [ValueError]
    whatever [n_qubits] is, before anything is drawn: the global generator
    is left exactly as it was. *)
Theorem bad_seed_raises_and_keeps_generator (R : RandomState) (n : pynum)
        (s : Z) (g : mt_state R) :
  ~ (0 <= s < 2 ^ 32) ->
  bb84_protocol R n (Some s) g = (Raised ValueError, g) /\
  e91_protocol R n (Some s) g = (Raised ValueError, g).
Proof. apply bad_seed_raises_and_keeps_generator_aux. Qed.

Lemma bad_seed_raises_and_keeps_generator_witness :
  bb84_protocol lcg (PyInt 10) (Some (-1)) 5 = (Raised ValueError, 5) /\
  e91_protocol lcg (PyInt 10) (Some (-1)) 5 = (Raised ValueError, 5).
Proof.
  apply (bad_seed_raises_and_keeps_generator lcg (PyInt 10) (-1) 5). lia.
Defined.

Lemma bind_same {S A B : Type} (m1 m2 : np S A) (f : A -> np S B) g1 g2 :
  m1 g1 = m2 g2 -> bind m1 f g1 = bind m2 f g2.
Proof. unfold bind. intros ->. reflexivity. Qed.

(** X8: passing an accepted seed is the same as seeding the global
    generator first and calling without a seed: the result and the
    generator state left behind coincide. *)
Theorem seed_argument_is_prior_seeding (R : RandomState) (n : pynum) (s : Z)
        (g : mt_state R) :
  0 <= s < 2 ^ 32 ->
  bb84_protocol R n (Some s) g = bb84_protocol R n None (seeded R s) /\
  e91_protocol R n (Some s) g = e91_protocol R n None (seeded R s).
Proof.
  intros H.
  assert (E : seed_if_given R (Some s) g = (Returned tt, seeded R s)).
  { simpl. unfold np_random_seed.
    replace ((0 <=? s) && (s <? 2 ^ 32)) with true; [reflexivity |].
    symmetry. apply andb_true_intro.
    split; [apply Z.leb_le | apply Z.ltb_lt]; lia. }
  split.
  - unfold bb84_protocol, bb84_simulate, bb84_prepare.
    do 3 apply bind_same. rewrite E. reflexivity.
  - unfold e91_protocol, e91_simulate.
    do 2 apply bind_same. rewrite E. reflexivity.
Qed.

Lemma seed_argument_is_prior_seeding_witness :
  bb84_protocol lcg (PyInt 6) (Some 42) 0
  = bb84_protocol lcg (PyInt 6) None (seeded lcg 42) /\
  e91_protocol lcg (PyInt 6) (Some 42) 0
  = e91_protocol lcg (PyInt 6) None (seeded lcg 42).
Proof.
  apply (seed_argument_is_prior_seeding lcg (PyInt 6) 42 0). lia.
Defined.

(** ** One seed, two protocols *)

(** X9: called with the same positive size and the same accepted seed (or,
    without a seed, from the same generator state), [e91_protocol] draws the
    values [bb84_protocol] draws first: its [alice_bases] are the
    [alice_bits] of BB84 and its [bob_bases] are Alice's BB84 bases (as 0/1),
    so its correlation rate is the share of BB84 indices at which Alice's bit
    equals her basis. *)
Theorem e91_reuses_bb84_draws (R : RandomState) (HR : RandomStateLaws R)
        (z : Z) (_seed : option Z) (g : mt_state R) :
  0 < z -> seed_ok _seed ->
  exists L g' E h',
    bb84_protocol R (PyInt z) _seed g = (Returned (bb84_result L), g') /\
    e91_protocol R (PyInt z) _seed g = (Returned (e91_result E), h') /\
    e91_alice_bases E = alice_bits L /\
    e91_bob_bases E = alice_bases L /\
    correlation_rate E
    = Fin (Z.of_nat (count_agreeing (alice_bits L) (alice_bases L))
           # Pos.of_nat (Z.to_nat z)).
Proof.
  intros Hz Hs.
  assert (Hz0 : 0 <= z) by lia.
  destruct (bb84_run_rows R HR z _seed g Hz0 Hs)
    as (L & g' & rows & Erun & _).
  destruct (bb84_simulate_inv R _ _ _ _ _ Erun) as (g3 & g4 & Ep & _).
  apply bb84_prepare_inv in Ep.
  destruct Ep as (z0 & h0 & h1 & h2 & Hz0' & _ & Eseed & Ea & Eb & _).
  inversion Hz0'; subst z0.
  destruct (e91_run R z _seed g Hz Hs)
    as (E & k0 & k1 & h' & Esim & Eseed' & Ea' & Eb' & _ & _ & Hrate).
  rewrite Eseed in Eseed'. injection Eseed' as Hk0. subst k0.
  rewrite Ea in Ea'. injection Ea' as Hbits Hk1. subst k1.
  rewrite Eb in Eb'. injection Eb' as Hbases _.
  exists L, g', E, h'.
  split; [apply bb84_protocol_of_simulate; exact Erun |].
  split; [apply e91_protocol_of_simulate; exact Esim |].
  rewrite Hrate, <- Hbits, <- Hbases. repeat split.
Qed.

Lemma e91_reuses_bb84_draws_witness :
  exists L g' E h',
    bb84_protocol lcg (PyInt 6) (Some 42) 0 = (Returned (bb84_result L), g') /\
    e91_protocol lcg (PyInt 6) (Some 42) 0 = (Returned (e91_result E), h') /\
    e91_alice_bases E = alice_bits L /\
    e91_bob_bases E = alice_bases L /\
    correlation_rate E
    = Fin (Z.of_nat (count_agreeing (alice_bits L) (alice_bases L))
           # Pos.of_nat (Z.to_nat 6)).
Proof.
  apply (e91_reuses_bb84_draws lcg lcg_laws 6 (Some 42) 0).
  - lia.
  - simpl. lia.
Defined.

(** ** The exceptions a call can end in *)

Lemma seed_ok_or_rejected (_seed : option Z) :
  seed_ok _seed \/ exists s, _seed = Some s /\ ~ (0 <= s < 2 ^ 32).
Proof.
  destruct _seed as [s |]; simpl; [| auto].
  destruct (Z_le_dec 0 s); destruct (Z_lt_dec s (2 ^ 32));
    try (left; lia); right; exists s; split; try reflexivity; lia.
Qed.

Lemma rejected_outcome (R : RandomState) {A : Type}
      (call : option Z -> np (mt_state R) A) _seed g e :
  rejected_at_entry R call _seed g e ->
  fst (call _seed g) = Raised e \/ fst (call _seed g) = Raised ValueError.
Proof.
  unfold rejected_at_entry.
  destruct (seed_ok_or_rejected _seed) as [Hs | (s & -> & Hs)].
  - destruct (seed_if_given_ok R _seed g Hs) as (g0 & ->).
    intros ->. auto.
  - rewrite (seed_rejected R s g Hs). intros ->. auto.
Qed.

(** X10: for a float size, or an integer size up to the slider's maximum
    (zero and negative sizes included), whatever the seed and the generator
    state, a call of either protocol returns a dict or raises [ValueError]
    or [TypeError] (numpy's checks of the seed and of the size): the lookup
    in [polarization_symbols] never raises [KeyError] and the indexing with
    the comparison subset never raises [IndexError]. *)
Theorem only_seed_and_size_errors (R : RandomState) (HR : RandomStateLaws R)
        (n : pynum) (_seed : option Z) (g : mt_state R) :
  size_up_to_slider_max n ->
  ((exists d, fst (bb84_protocol R n _seed g) = Returned d) \/
   fst (bb84_protocol R n _seed g) = Raised ValueError \/
   fst (bb84_protocol R n _seed g) = Raised TypeError) /\
  ((exists d, fst (e91_protocol R n _seed g) = Returned d) \/
   fst (e91_protocol R n _seed g) = Raised ValueError \/
   fst (e91_protocol R n _seed g) = Raised TypeError).
Proof.
  intros _.
  destruct n as [z | q].
  - destruct (Z_lt_dec z 0) as [Hneg | Hpos].
    + assert (Hn : forall g0,
                 np_random_randint2_size R (PyInt z) g0 = (Raised ValueError, g0)).
      { intros g0. simpl. apply Z.ltb_lt in Hneg. rewrite Hneg. reflexivity. }
      destruct (rejected_by_first_draw R (PyInt z) ValueError Hn _seed g)
        as [Hb He].
      apply rejected_outcome in Hb. apply rejected_outcome in He.
      split; right; left; tauto.
    + destruct (seed_ok_or_rejected _seed) as [Hs | (s & -> & Hs)].
      * destruct (bb84_run R HR z _seed g ltac:(lia) Hs)
          as (L & g' & g4 & Erun & _).
        apply bb84_protocol_of_simulate in Erun.
        destruct (Z.eq_dec z 0) as [-> | Hnz].
        -- split; left.
           ++ rewrite Erun. eexists. reflexivity.
           ++ rewrite (e91_zero_qubits_run R _seed g Hs). eexists. reflexivity.
        -- destruct (e91_run R z _seed g ltac:(lia) Hs)
             as (E & k0 & k1 & h' & Esim & _).
           apply e91_protocol_of_simulate in Esim.
           split; left; [rewrite Erun | rewrite Esim]; eexists; reflexivity.
      * destruct (bad_seed_raises_and_keeps_generator_aux R (PyInt z) s g Hs)
          as [-> ->].
        split; right; left; reflexivity.
  - assert (Hn : forall g0,
               np_random_randint2_size R (PyFloat q) g0 = (Raised TypeError, g0))
      by reflexivity.
    destruct (rejected_by_first_draw R (PyFloat q) TypeError Hn _seed g)
      as [Hb He].
    apply rejected_outcome in Hb. apply rejected_outcome in He.
    split; tauto.
Qed.

Lemma only_seed_and_size_errors_witness :
  ((exists d, fst (bb84_protocol lcg (PyInt 3) None 0) = Returned d) \/
   fst (bb84_protocol lcg (PyInt 3) None 0) = Raised ValueError \/
   fst (bb84_protocol lcg (PyInt 3) None 0) = Raised TypeError) /\
  ((exists d, fst (e91_protocol lcg (PyInt 3) None 0) = Returned d) \/
   fst (e91_protocol lcg (PyInt 3) None 0) = Raised ValueError \/
   fst (e91_protocol lcg (PyInt 3) None 0) = Raised TypeError).
Proof.
  apply (only_seed_and_size_errors lcg lcg_laws (PyInt 3) None 0).
  simpl. lia.
Defined.

(** * The cached calls *)

Lemma pynum_eqb_refl n : pynum_eqb n n = true.
Proof.
  destruct n as [z | q]; simpl.
  - apply Z.eqb_refl.
  - apply Qeq_bool_iff. reflexivity.
Qed.

Lemma pynum_eqb_int m z : pynum_eqb m (PyInt z) = true -> m = PyInt z.
Proof.
  destruct m as [x | q]; simpl; [| discriminate].
  intros H. apply Z.eqb_eq in H. congruence.
Qed.

Lemma cached_call_outcome {S : Type} (f : pynum -> option Z -> np S dict)
      n _seed c g o c' g' :
  cached_call f n _seed (c, g) = (o, (c', g')) ->
  (exists d, cache_lookup n c = Some d /\ o = Returned d /\ c' = c /\ g' = g) \/
  (exists d, cache_lookup n c = None /\ f n _seed g = (Returned d, g') /\
             o = Returned d /\ c' = (n, d) :: c) \/
  (exists e, cache_lookup n c = None /\ f n _seed g = (Raised e, g') /\
             o = Raised e /\ c' = c).
Proof.
  unfold cached_call. destruct (cache_lookup n c) as [d |].
  - intros H. inversion H. subst. left. eauto.
  - destruct (f n _seed g) as [[e | d] g1]; intros H; inversion H; subst.
    + right. right. eauto.
    + right. left. eauto.
Qed.

Lemma cached_call_repeats {S : Type} (f : pynum -> option Z -> np S dict)
      n s1 c g d c' g' :
  cached_call f n s1 (c, g) = (Returned d, (c', g')) ->
  forall s2 g2, cached_call f n s2 (c', g2) = (Returned d, (c', g2)).
Proof.
  intros H s2 g2. apply cached_call_outcome in H.
  destruct H as [(d0 & Hl & Ho & -> & _) | [(d0 & Hl & _ & Ho & ->)
                                           | (e & _ & _ & Ho & _)]];
    try discriminate; inversion Ho; subst d0; unfold cached_call.
  - rewrite Hl. reflexivity.
  - simpl. rewrite pynum_eqb_refl. reflexivity.
Qed.

(** X11: [_seed] is not part of the cache key.  Once a cached call for some
    [n_qubits] has returned, every later call with that [n_qubits] returns
    the same dict whatever seed it is given, without running the function:
    the cache and the global generator are left untouched. *)
Theorem cached_call_ignores_seed (R : RandomState) (n : pynum)
        (s1 : option Z) (c : cache) (g : mt_state R) (d : dict) (c' : cache)
        (g' : mt_state R) (s2 : option Z) (g2 : mt_state R) :
  bb84_cached R n s1 (c, g) = (Returned d, (c', g')) ->
  bb84_cached R n s2 (c', g2) = (Returned d, (c', g2)).
Proof. intros H. apply (cached_call_repeats _ _ _ _ _ _ _ _ H). Qed.

Lemma cached_call_ignores_seed_witness :
  bb84_cached lcg (PyInt 6) (Some 7) ([(PyInt 6, six_qubits_seed_42)], 0)
  = (Returned six_qubits_seed_42, ([(PyInt 6, six_qubits_seed_42)], 0)).
Proof.
  apply (cached_call_ignores_seed lcg (PyInt 6) (Some 42) [] 0
           six_qubits_seed_42 [(PyInt 6, six_qubits_seed_42)] 1939145516
           (Some 7) 0).
  vm_compute. reflexivity.
Defined.

(** The dict a second seed would give is another one: the cached call
    hides it. *)
Example cached_result_is_not_that_of_the_new_seed :
  fst (bb84_cached lcg (PyInt 6) (Some 7) ([(PyInt 6, six_qubits_seed_42)], 0))
  = Returned six_qubits_seed_42 /\
  fst (bb84_protocol lcg (PyInt 6) (Some 7) 0) <> Returned six_qubits_seed_42.
Proof.
  split.
  - vm_compute. reflexivity.
  - vm_compute. discriminate.
Qed.

Lemma cache_sound_nil (R : RandomState) : bb84_cache_sound R [].
Proof. intros n d H. discriminate H. Qed.

Lemma cache_sound_step (R : RandomState) c n _seed g o c' g' :
  bb84_cache_sound R c ->
  bb84_cached R n _seed (c, g) = (o, (c', g')) ->
  bb84_cache_sound R c' /\
  match o with
  | Returned d => exists s0 g0 g1, bb84_protocol R n s0 g0 = (Returned d, g1)
  | Raised e =>
      c' = c /\ cache_lookup n c = None /\
      bb84_protocol R n _seed g = (Raised e, g')
  end.
Proof.
  intros Hc H. apply cached_call_outcome in H.
  destruct H as [(d & Hl & -> & -> & ->) | [(d & Hl & Hf & -> & ->)
                                           | (e & Hl & Hf & -> & ->)]].
  - split; [exact Hc | exact (Hc n d Hl)].
  - split; [| eauto].
    intros m d' Hm. simpl in Hm.
    destruct (pynum_eqb m n) eqn:E.
    + inversion Hm; subst d'.
      destruct (bb84_result_domain R _ _ _ _ _ Hf) as (z & -> & _).
      apply pynum_eqb_int in E. subst m. eauto.
    + exact (Hc m d' Hm).
  - split; [exact Hc | auto].
Qed.

(** X12: the cache only ever holds, and a cached call only ever returns,
    dicts that [bb84_protocol] itself returned for the same [n_qubits] (under
    some seed): starting from a cache with this property, a cached call keeps
    it; a call that raises stores nothing, so the same call is run again the
    next time. *)
Theorem cached_results_are_genuine (R : RandomState) (c : cache) (n : pynum)
        (_seed : option Z) (g : mt_state R) (o : outcome dict) (c' : cache)
        (g' : mt_state R) :
  bb84_cache_sound R c ->
  bb84_cached R n _seed (c, g) = (o, (c', g')) ->
  bb84_cache_sound R c' /\
  match o with
  | Returned d => exists s0 g0 g1, bb84_protocol R n s0 g0 = (Returned d, g1)
  | Raised e =>
      c' = c /\ cache_lookup n c = None /\
      bb84_protocol R n _seed g = (Raised e, g')
  end.
Proof. apply cache_sound_step. Qed.

Lemma cached_results_are_genuine_witness :
  bb84_cache_sound lcg [(PyInt 6, six_qubits_seed_42)] /\
  exists s0 g0 g1,
    bb84_protocol lcg (PyInt 6) s0 g0 = (Returned six_qubits_seed_42, g1).
Proof.
  apply (cached_results_are_genuine lcg [] (PyInt 6) (Some 42) 0
           (Returned six_qubits_seed_42) [(PyInt 6, six_qubits_seed_42)]
           1939145516).
  - intros n d H. discriminate H.
  - vm_compute. reflexivity.
Defined.

(** * The dashboard's reading of a result *)

Lemma sum_flags (rows : list iteration) :
  np_sum (map Z.b2z (map it_matched rows))
  = Z.of_nat (length (filter it_matched rows)).
Proof.
  unfold np_sum. induction rows as [| r rows IH]; simpl.
  - reflexivity.
  - rewrite IH. destruct (it_matched r); simpl length; simpl Z.b2z; lia.
Qed.

Lemma comprehension_returns {A : Type} (f : nat -> outcome A) (h : nat -> A)
      (idx : list nat) :
  (forall i, In i idx -> f i = Returned (h i)) ->
  comprehension f idx = Returned (map h idx).
Proof.
  induction idx as [| i idx IH]; intros H; simpl.
  - reflexivity.
  - rewrite (H i (or_introl eq_refl)). simpl.
    rewrite IH by (intros j Hj; apply H; right; exact Hj).
    reflexivity.
Qed.

Lemma index_strs l i x :
  nth_error l i = Some x -> index (PyStrList l) i = Returned (PyS x).
Proof. intros H. simpl. unfold nth_or_IndexError. rewrite H. reflexivity. Qed.

Lemma index_bools l i x :
  nth_error l i = Some x -> index (PyBoolList l) i = Returned (PyB x).
Proof. intros H. simpl. unfold nth_or_IndexError. rewrite H. reflexivity. Qed.

(** The row of index [i] of the table, read off the locals. *)
Lemma matched_flag_at (R : RandomState) (L : bb84_locals) g0 rows i :
  rows_follow R L g0 rows ->
  matched_bases (loop_end L) = map it_matched rows ->
  Forall is_bit (alice_bases L) -> Forall is_bit (bob_bases L) ->
  (i < length rows)%nat ->
  exists ab bb,
    nth_error (alice_bases L) i = Some ab /\
    nth_error (bob_bases L) i = Some bb /\
    nth_error (matched_bases (loop_end L)) i
    = Some (String.eqb (basis_name ab) (basis_name bb)).
Proof.
  intros Hrows F4 Bb Bc Hi.
  destruct (nth_error_in_range rows i Hi) as (r & Hr).
  destruct (Hrows i r Hr)
    as (bit & ab & bb & pol & _ & N2 & N3 & _ & _ & (g1 & _ & Hm & _)).
  exists ab, bb. repeat split; try assumption.
  rewrite F4, nth_error_map, Hr. simpl. rewrite Hm.
  rewrite basis_name_eqb; [reflexivity | |].
  - apply (forall_nth is_bit _ _ _ Bb N2).
  - apply (forall_nth is_bit _ _ _ Bc N3).
Qed.

Section Dashboard.

Variable R : RandomState.
Hypothesis HR : RandomStateLaws R.

(** What [main] makes of a dict [bb84_protocol] returned for [n_qubits]. *)
Lemma genuine_result_view n _seed g d g' :
  bb84_protocol R (PyInt n) _seed g = (Returned d, g') ->
  exists key flag table,
    dict_get "shared_key" d = Some (PyIntList key) /\
    dict_get "eavesdropping_detected" d = Some (PyBool flag) /\
    0 <= Z.of_nat (length key) <= n /\
    bb84_metrics d n
    = Returned
        [ ("Total Qubits"%string, MetricInt n);
          ("Matched Bases"%string,
           MetricStr (py_str_int (Z.of_nat (length key)) ++ " / "
                      ++ py_str_int n)%string);
          ("Shared Key Length"%string, MetricInt (Z.of_nat (length key)));
          ("Quantum Channel"%string,
           MetricStr (if flag then "Compromised" else "Secure")%string) ] /\
    matched_data d n = Returned table /\
    Z.of_nat (length table) = n /\
    forall i row,
      nth_error table i = Some row ->
      Index row = Z.of_nat i /\
      exists a b,
        Alice_Basis row = PyS a /\ Bob_Basis row = PyS b /\
        (a = "+" \/ a = "X")%string /\ (b = "+" \/ b = "X")%string /\
        Bases_Matched row = PyB (String.eqb a b).
Proof.
  intros H.
  destruct (bb84_returned_rows R HR _ _ _ _ _ H)
    as (z & L & rows & Hn & Hz & _ & -> & _ & (La & Lb & Lc & Lp & Lr)
        & (F1 & F2 & F3 & F4 & F5) & (Ba & Bb & Bc) & Hrows).
  inversion Hn; subst z.
  set (h := fun i : nat =>
              {| Index := Z.of_nat i;
                 Alice_Basis := PyS (basis_name (nth i (alice_bases L) 0));
                 Bob_Basis := PyS (basis_name (nth i (bob_bases L) 0));
                 Bases_Matched :=
                   PyB (String.eqb (basis_name (nth i (alice_bases L) 0))
                                   (basis_name (nth i (bob_bases L) 0))) |}).
  exists (shared_key (loop_end L)), (np_gt (error_rate L) (15 # 100)),
    (map h (seq 0 (Z.to_nat n))).
  split; [reflexivity |].
  split; [reflexivity |].
  assert (Hkey : Z.of_nat (length (shared_key (loop_end L)))
                 = np_sum (map Z.b2z (matched_bases (loop_end L)))).
  { rewrite F4, F5, sum_flags, length_map. reflexivity. }
  split.
  { rewrite F5, length_map. pose proof (filter_length_le it_matched rows). lia. }
  split.
  { unfold bb84_metrics.
    change (getitem (bb84_result L) "matched_bases")
      with (Returned (PyBoolList (matched_bases (loop_end L)))).
    change (getitem (bb84_result L) "shared_key")
      with (Returned (PyIntList (shared_key (loop_end L)))).
    change (getitem (bb84_result L) "eavesdropping_detected")
      with (Returned (PyBool (np_gt (error_rate L) (15 # 100)))).
    cbn [and_then py_sum py_len py_truth]. rewrite <- Hkey. reflexivity. }
  split.
  { unfold matched_data. apply comprehension_returns.
    intros i Hi. apply in_seq in Hi.
    assert (Hir : (i < length rows)%nat) by lia.
    destruct (matched_flag_at R L _ rows i Hrows F4 Bb Bc Hir)
      as (ab & bb & N2 & N3 & Nm).
    unfold matched_row_at.
    change (getitem (bb84_result L) "alice_bases")
      with (Returned (PyStrList (map basis_name (alice_bases L)))).
    change (getitem (bb84_result L) "bob_bases")
      with (Returned (PyStrList (map basis_name (bob_bases L)))).
    change (getitem (bb84_result L) "matched_bases")
      with (Returned (PyBoolList (matched_bases (loop_end L)))).
    cbn [and_then].
    rewrite (index_strs _ i (basis_name ab))
      by (rewrite nth_error_map, N2; reflexivity).
    cbn [and_then].
    rewrite (index_strs _ i (basis_name bb))
      by (rewrite nth_error_map, N3; reflexivity).
    cbn [and_then].
    rewrite (index_bools _ i _ Nm). cbn [and_then].
    unfold h. rewrite (nth_error_nth _ _ 0 N2), (nth_error_nth _ _ 0 N3).
    reflexivity. }
  split.
  { rewrite length_map, length_seq. lia. }
  intros i row Hrow.
  apply nth_error_map_some in Hrow. destruct Hrow as (j & Hj & ->).
  assert (Hij : j = i).
  { pose proof Hj as Hlt.
    assert (i < length (seq 0 (Z.to_nat n)))%nat
      by (apply nth_error_Some; rewrite Hj; discriminate).
    rewrite length_seq in *. rewrite nth_error_seq in Hj.
    destruct (Nat.ltb i (Z.to_nat n)); inversion Hj; lia. }
  subst j. unfold h. simpl.
  split; [reflexivity |].
  do 2 eexists. repeat split;
    unfold basis_name;
    match goal with
    | |- _ \/ _ => destruct (_ =? 0); auto
    end.
Qed.

End Dashboard.

Section DashboardRun.

Variable R : RandomState.
Hypothesis HR : RandomStateLaws R.

Lemma genuine_error_rate n _seed g d g' :
  bb84_protocol R (PyInt n) _seed g = (Returned d, g') ->
  2 <= n ->
  exists x, dict_get "error_rate" d = Some (PyFloat64 x) /\ in_unit_interval x.
Proof.
  intros H Hn.
  destruct (bb84_result_domain R _ _ _ _ _ H) as (z & Hz & Hz0 & Hs).
  inversion Hz; subst z.
  destruct (error_rate_facts R HR n _seed g Hz0 Hs)
    as (L & g'' & Erun & Hest).
  apply bb84_protocol_of_simulate in Erun.
  rewrite H in Erun. injection Erun as -> _.
  cbv zeta in Hest. destruct Hest as (_ & _ & Hlen & _ & _ & Hratio).
  exists (error_rate L). split; [reflexivity |].
  rewrite (Hratio Hn). apply ratio_in_unit.
  - rewrite Hlen. assert (0 < n / 2) by (apply Z.div_str_pos; lia). lia.
  - rewrite <- (at_indices_length (alice_bits L) (comparison_subset L)).
    apply count_differing_le.
Qed.

(** X13: for a dict returned by [bb84_protocol], the four metrics of [main]
    are computed without an exception; the count shown in "Matched Bases"
    (the sum of the matched flags) is the number shown as "Shared Key
    Length", it is at most [n_qubits], and "Quantum Channel" reads
    "Compromised" exactly when [eavesdropping_detected] is true. *)
Theorem metrics_of_a_result (n : Z) (_seed : option Z) (g : mt_state R) :
  0 <= n -> seed_ok _seed ->
  exists d g' key flag,
    bb84_protocol R (PyInt n) _seed g = (Returned d, g') /\
    dict_get "shared_key" d = Some (PyIntList key) /\
    dict_get "eavesdropping_detected" d = Some (PyBool flag) /\
    0 <= Z.of_nat (length key) <= n /\
    bb84_metrics d n
    = Returned
        [ ("Total Qubits"%string, MetricInt n);
          ("Matched Bases"%string,
           MetricStr (py_str_int (Z.of_nat (length key)) ++ " / "
                      ++ py_str_int n)%string);
          ("Shared Key Length"%string, MetricInt (Z.of_nat (length key)));
          ("Quantum Channel"%string,
           MetricStr (if flag then "Compromised" else "Secure")%string) ].
Proof.
  intros Hn Hs.
  destruct (bb84_run R HR n _seed g Hn Hs) as (L & g' & g4 & Erun & _).
  apply bb84_protocol_of_simulate in Erun.
  destruct (genuine_result_view R HR _ _ _ _ _ Erun)
    as (key & flag & table & H1 & H2 & H3 & H4 & _).
  exists (bb84_result L), g', key, flag. auto.
Qed.

(** X14: for a dict returned by [bb84_protocol], the comprehension building
    [matched_data] never raises [IndexError] or [KeyError]; the table has
    [n_qubits] rows, row [i] carries index [i], two basis names out of "+"
    and "X", and "Bases Matched" is true exactly when the two names are
    equal. *)
Theorem matched_table_of_a_result (n : Z) (_seed : option Z) (g : mt_state R) :
  0 <= n -> seed_ok _seed ->
  exists d g' table,
    bb84_protocol R (PyInt n) _seed g = (Returned d, g') /\
    matched_data d n = Returned table /\
    Z.of_nat (length table) = n /\
    forall i row,
      nth_error table i = Some row ->
      Index row = Z.of_nat i /\
      exists a b,
        Alice_Basis row = PyS a /\ Bob_Basis row = PyS b /\
        (a = "+" \/ a = "X")%string /\ (b = "+" \/ b = "X")%string /\
        Bases_Matched row = PyB (String.eqb a b).
Proof.
  intros Hn Hs.
  destruct (bb84_run R HR n _seed g Hn Hs) as (L & g' & g4 & Erun & _).
  apply bb84_protocol_of_simulate in Erun.
  destruct (genuine_result_view R HR _ _ _ _ _ Erun)
    as (key & flag & table & _ & _ & _ & _ & H5 & H6 & H7).
  exists (bb84_result L), g', table. auto.
Qed.

(** X15: for every size the slider can deliver (5 to 50) and every seed the
    number input can deliver (0 to 1000), and a cache filled by earlier
    calls, the BB84 branch of [main] runs without an exception: the cached
    call returns, the metrics and the table are built, the table has
    [n_qubits] rows, and the error rate of the dict shown is a number of
    [0,1], never NaN. *)
Theorem dashboard_run_never_fails (n s : Z) (c : cache) (g : mt_state R) :
  slider_range n -> seed_input_range s -> bb84_cache_sound R c ->
  exists d metrics table c' g',
    bb84_cached R (PyInt n) (Some s) (c, g) = (Returned d, (c', g')) /\
    dashboard_bb84 R n s (c, g) = (Returned (metrics, table), (c', g')) /\
    bb84_cache_sound R c' /\
    length metrics = 4%nat /\
    Z.of_nat (length table) = n /\
    exists x,
      dict_get "error_rate" d = Some (PyFloat64 x) /\ in_unit_interval x.
Proof.
  intros Hn Hseed Hc. unfold slider_range in Hn. unfold seed_input_range in Hseed.
  assert (Hs : seed_ok (Some s)) by (simpl; lia).
  destruct (bb84_cached R (PyInt n) (Some s) (c, g)) as [o [c' g']] eqn:E.
  destruct (cache_sound_step R c _ _ _ _ _ _ Hc E) as [Hc' Ho].
  destruct o as [e | d].
  - exfalso. destruct Ho as (_ & _ & Hf).
    destruct (bb84_run R HR n (Some s) g ltac:(lia) Hs)
      as (L & g1 & g4 & Erun & _).
    apply bb84_protocol_of_simulate in Erun. rewrite Erun in Hf. discriminate.
  - destruct Ho as (s0 & g0 & g1 & Hgen).
    destruct (genuine_result_view R HR _ _ _ _ _ Hgen)
      as (key & flag & table & _ & _ & _ & Hm & Ht & Hlen & _).
    destruct (genuine_error_rate _ _ _ _ _ Hgen ltac:(lia)) as (x & Hx).
    eexists d, _, table, c', g'.
    split; [reflexivity |].
    split.
    { unfold dashboard_bb84. rewrite E, Hm, Ht. reflexivity. }
    split; [exact Hc' |].
    split; [reflexivity |].
    split; [exact Hlen |].
    exists x. exact Hx.
Qed.

End DashboardRun.

Lemma metrics_of_a_result_witness :
  exists d g' key flag,
    bb84_protocol lcg (PyInt 6) (Some 42) 0 = (Returned d, g') /\
    dict_get "shared_key" d = Some (PyIntList key) /\
    dict_get "eavesdropping_detected" d = Some (PyBool flag) /\
    0 <= Z.of_nat (length key) <= 6 /\
    bb84_metrics d 6
    = Returned
        [ ("Total Qubits"%string, MetricInt 6);
          ("Matched Bases"%string,
           MetricStr (py_str_int (Z.of_nat (length key)) ++ " / "
                      ++ py_str_int 6)%string);
          ("Shared Key Length"%string, MetricInt (Z.of_nat (length key)));
          ("Quantum Channel"%string,
           MetricStr (if flag then "Compromised" else "Secure")%string) ].
Proof.
  apply (metrics_of_a_result lcg lcg_laws 6 (Some 42) 0).
  - lia.
  - simpl. lia.
Defined.

Lemma matched_table_of_a_result_witness :
  exists d g' table,
    bb84_protocol lcg (PyInt 6) (Some 42) 0 = (Returned d, g') /\
    matched_data d 6 = Returned table /\
    Z.of_nat (length table) = 6 /\
    forall i row,
      nth_error table i = Some row ->
      Index row = Z.of_nat i /\
      exists a b,
        Alice_Basis row = PyS a /\ Bob_Basis row = PyS b /\
        (a = "+" \/ a = "X")%string /\ (b = "+" \/ b = "X")%string /\
        Bases_Matched row = PyB (String.eqb a b).
Proof.
  apply (matched_table_of_a_result lcg lcg_laws 6 (Some 42) 0).
  - lia.
  - simpl. lia.
Defined.

Lemma dashboard_run_never_fails_witness :
  exists d metrics table c' g',
    bb84_cached lcg (PyInt 6) (Some 42) ([], 0) = (Returned d, (c', g')) /\
    dashboard_bb84 lcg 6 42 ([], 0) = (Returned (metrics, table), (c', g')) /\
    bb84_cache_sound lcg c' /\
    length metrics = 4%nat /\
    Z.of_nat (length table) = 6 /\
    exists x,
      dict_get "error_rate" d = Some (PyFloat64 x) /\ in_unit_interval x.
Proof.
  apply (dashboard_run_never_fails lcg lcg_laws 6 42 [] 0).
  - unfold slider_range. lia.
  - unfold seed_input_range. lia.
  - intros n d H. discriminate H.
Defined.

(** The dashboard's six-qubit run on the concrete generator. *)
Example dashboard_six_qubits :
  fst (dashboard_bb84 lcg 6 42 ([], 0))
  = Returned
      ([ ("Total Qubits", MetricInt 6);
         ("Matched Bases", MetricStr "2 / 6");
         ("Shared Key Length", MetricInt 2);
         ("Quantum Channel", MetricStr "Compromised") ]%string,
       [ {| Index := 0; Alice_Basis := PyS "X"; Bob_Basis := PyS "+";
            Bases_Matched := PyB false |};
         {| Index := 1; Alice_Basis := PyS "X"; Bob_Basis := PyS "+";
            Bases_Matched := PyB false |};
         {| Index := 2; Alice_Basis := PyS "+"; Bob_Basis := PyS "+";
            Bases_Matched := PyB true |};
         {| Index := 3; Alice_Basis := PyS "X"; Bob_Basis := PyS "X";
            Bases_Matched := PyB true |};
         {| Index := 4; Alice_Basis := PyS "X"; Bob_Basis := PyS "+";
            Bases_Matched := PyB false |};
         {| Index := 5; Alice_Basis := PyS "+"; Bob_Basis := PyS "X";
            Bases_Matched := PyB false |} ]%string).
Proof. vm_compute. reflexivity. Qed.
